(** * TOMPEI-CMMD annotation viewer: a shallow embedding of [viewer.py]

    The development follows the source file top to bottom:
    - [PyStr]: the [str] methods the viewer calls ([strip], [lower], [in],
      [startswith], [endswith], slicing) and the two [os.path] functions;
    - [Py]: exceptions, decoded JSON values and the dynamic operations
      ([in], subscripting, [.get], iteration) that [load_annotations] relies on;
    - [Viewer]: [extract_patient_json_mapping], [load_annotations],
      [display_dicom_with_annotation], [is_mlo_view] and the per-patient
      processing step of [main];
    - [Archive]: [download_and_extract_zip]; [Navigation]: the patient list
      and the index of the patient shown; [Page]: the toggles and the figure
      loop of [main];
    - the theorems about them.

    Strings are [string]: a Python [str] whose code points all lie below 256
    (Latin-1), one [ascii] per code point.  External libraries (the JSON
    parser, the DICOM decoder, the plotting backend, the download helper) are
    not re-implemented: their results are inputs of the model, and the calls
    the viewer makes on a plot are recorded in order. *)

From Stdlib Require Import ZArith NArith Ascii String List Bool Lia.
From stdpp Require Import base option list gmap strings fin_maps sorting.

Local Open Scope string_scope.
Local Open Scope list_scope.

(** ** Python [str] operations *)

Module PyStr.

(** [chr(n).isspace()] for n < 256: 9..13, 28..32, 133 and 160. *)
Definition isspace (c : ascii) : bool :=
  let n := N_of_ascii c in
  ((9 <=? n) && (n <=? 13) || (28 <=? n) && (n <=? 32)
   || (n =? 133) || (n =? 160))%N.

(** [chr(n).lower()] for n < 256: A..Z and the accented capitals
    192..222 (the multiplication sign 215 apart) move up by 32. *)
Definition lower_char (c : ascii) : ascii :=
  let n := N_of_ascii c in
  if ((65 <=? n) && (n <=? 90)
      || (192 <=? n) && (n <=? 222) && negb (n =? 215))%N
  then ascii_of_N (n + 32) else c.

Fixpoint lower (s : string) : string :=
  match s with
  | EmptyString => EmptyString
  | String c s' => String (lower_char c) (lower s')
  end.

Fixpoint lstrip (s : string) : string :=
  match s with
  | EmptyString => EmptyString
  | String c s' => if isspace c then lstrip s' else s
  end.

Fixpoint rstrip (s : string) : string :=
  match s with
  | EmptyString => EmptyString
  | String c s' =>
      match rstrip s' with
      | EmptyString => if isspace c then EmptyString else String c EmptyString
      | r => String c r
      end
  end.

(** [s.strip()] *)
Definition strip (s : string) : string := rstrip (lstrip s).

(** [s.startswith(p)] *)
Definition startswith (s p : string) : bool := String.prefix p s.

(** [s.endswith(suf)] *)
Definition endswith (s suf : string) : bool :=
  let n := String.length s in
  let m := String.length suf in
  (m <=? n)%nat && String.eqb (String.substring (n - m) m s) suf.

(** [needle in hay] *)
Fixpoint contains (needle hay : string) : bool :=
  String.prefix needle hay ||
  match hay with
  | EmptyString => false
  | String _ hay' => contains needle hay'
  end.

(** [s[:n]] and [s[i:]] *)
Definition slice_to (n : nat) (s : string) : string := String.substring 0 n s.
Definition slice_from (i : nat) (s : string) : string :=
  String.substring i (String.length s - i) s.

(** [s.rfind(c)], [None] standing for -1 *)
Fixpoint rfind (c : ascii) (s : string) : option nat :=
  match s with
  | EmptyString => None
  | String a s' =>
      match rfind c s' with
      | Some k => Some (S k)
      | None => if Ascii.eqb a c then Some 0%nat else None
      end
  end.

Definition sep : ascii := "/"%char.

(** [posixpath.basename]: [i = p.rfind('/') + 1; return p[i:]] *)
Definition basename (p : string) : string :=
  let i := match rfind sep p with Some k => S k | None => 0%nat end in
  slice_from i p.

(** [posixpath.join(a, b)] *)
Definition join (a b : string) : string :=
  if startswith b "/" then b
  else if String.eqb a "" || endswith a "/" then a ++ b
  else a ++ "/" ++ b.

(** All characters of [s] are whitespace. *)
Fixpoint all_space (s : string) : bool :=
  match s with
  | EmptyString => true
  | String c s' => isspace c && all_space s'
  end.

(** First and last character, when there is one. *)
Definition first_char (s : string) : option ascii :=
  match s with EmptyString => None | String c _ => Some c end.

Fixpoint last_char (s : string) : option ascii :=
  match s with
  | EmptyString => None
  | String c EmptyString => Some c
  | String _ s' => last_char s'
  end.

End PyStr.

(** ** Python values, exceptions and dynamic operations *)

Module Py.

(** The exceptions the viewer can meet.  [LibraryError] stands for whatever an
    external library raises ([pydicom], [tcia_utils], [os]); every constructor
    is a subclass of [Exception]. *)
Inductive exn : Type :=
| OSError (msg : string)
| JSONDecodeError (msg : string)
| TypeError
| KeyError (key : string)
| AttributeError
| IndexError
| LibraryError (msg : string).

(** A computation that returns or raises. *)
Inductive result (A : Type) : Type :=
| Ok (a : A)
| Raise (e : exn).
Global Arguments Ok {A} a.
Global Arguments Raise {A} e.

Global Instance result_ret : MRet result := fun _ a => Ok a.
Global Instance result_bind : MBind result := fun _ _ f m =>
  match m with Ok a => f a | Raise e => Raise e end.
Global Instance result_fmap : FMap result := fun _ _ f m =>
  match m with Ok a => Ok (f a) | Raise e => Raise e end.

(** A float literal [mantissa * 10 ^ exponent], carried around unevaluated:
    the viewer never computes with one. *)
Record decimal : Type := Decimal { mantissa : Z; exponent : Z }.

(** What [json.load] returns.  A [dict] keeps its insertion order; its keys are
    distinct, so the first binding of a key is the only one. *)
#[warnings="-register-all"] Inductive pyval : Type :=
| PNone
| PBool (b : bool)
| PInt (n : Z)
| PFloat (f : decimal)
| PStr (s : string)
| PList (l : list pyval)
| PDict (kvs : list (string * pyval)).

Fixpoint dict_lookup (k : string) (kvs : list (string * pyval)) : option pyval :=
  match kvs with
  | [] => None
  | (k', v) :: kvs' => if String.eqb k' k then Some v else dict_lookup k kvs'
  end.

Definition is_str (k : string) (v : pyval) : bool :=
  match v with PStr s => String.eqb s k | _ => false end.

(** [k in v] for a string [k]: key test on a dict, element test on a list,
    substring test on a str; the other values are not containers. *)
Definition contains (k : string) (v : pyval) : result bool :=
  match v with
  | PDict kvs => Ok (bool_decide (is_Some (dict_lookup k kvs)))
  | PList l => Ok (existsb (is_str k) l)
  | PStr s => Ok (PyStr.contains k s)
  | _ => Raise TypeError
  end.

(** [v[k]] for a string [k]: only a dict accepts a string subscript. *)
Definition getitem (v : pyval) (k : string) : result pyval :=
  match v with
  | PDict kvs =>
      match dict_lookup k kvs with
      | Some x => Ok x
      | None => Raise (KeyError k)
      end
  | _ => Raise TypeError
  end.

(** [v.get(k, default)]: only a dict has the method. *)
Definition get (v : pyval) (k : string) (dflt : pyval) : result pyval :=
  match v with
  | PDict kvs => Ok (default dflt (dict_lookup k kvs))
  | _ => Raise AttributeError
  end.

(** [v.strip()]: only a str has the method. *)
Definition strip (v : pyval) : result string :=
  match v with
  | PStr s => Ok (PyStr.strip s)
  | _ => Raise AttributeError
  end.

(** The items [for x in v] goes through: the elements of a list, the keys of
    a dict, the characters of a str. *)
Definition iter (v : pyval) : result (list pyval) :=
  match v with
  | PList l => Ok l
  | PDict kvs => Ok (map (fun kv => PStr (fst kv)) kvs)
  | PStr s => Ok (map (fun c => PStr (String c EmptyString)) (list_ascii_of_string s))
  | _ => Raise TypeError
  end.

End Py.

(** ** The viewer *)

Module Viewer.
Import Py.

(** *** Directory trees and [os.walk] *)

(** A directory: the names of its files and its sub-directories, both in the
    order the file system lists them. *)
#[warnings="-register-all"] Inductive tree : Type :=
| Dir (files : list string) (subdirs : list (string * tree)).

Definition tree_files (t : tree) : list string :=
  match t with Dir files _ => files end.
Definition tree_subdirs (t : tree) : list (string * tree) :=
  match t with Dir _ subdirs => subdirs end.

(** [os.walk(top)], top-down: the triple [(root, dirs, files)] of the directory,
    then the walk of each sub-directory [os.path.join(top, name)] in turn. *)
Fixpoint os_walk (top : string) (t : tree) : list (string * list string * list string) :=
  match t with
  | Dir files subdirs =>
      (top, map fst subdirs, files) ::
      (fix walk_subdirs (l : list (string * tree)) :=
         match l with
         | [] => []
         | (name, t') :: l' => os_walk (PyStr.join top name) t' ++ walk_subdirs l'
         end) subdirs
  end.

(** *** [extract_patient_json_mapping] (lines 64-87) *)

(** First loop, lines 69-73: the JSON files of the walk, hidden ones left out. *)
Definition is_annotation_filename (filename : string) : bool :=
  negb (PyStr.startswith filename ".") && PyStr.endswith filename ".json".

Definition collect_json_files (walk : list (string * list string * list string)) : list string :=
  flat_map (fun '(root, _, files) =>
              map (PyStr.join root) (filter (fun f => is_annotation_filename f = true) files))
           walk.

(** [patient_id = os.path.basename(json_path)[:7]] *)
Definition patient_id_of (json_path : string) : string :=
  PyStr.slice_to 7 (PyStr.basename json_path).

(** Second loop, lines 76-85: one step adds [json_path] under its patient id. *)
Definition add_json_path (patient_json_dict : gmap string (list string)) (json_path : string)
  : gmap string (list string) :=
  let patient_id := patient_id_of json_path in
  let d := match patient_json_dict !! patient_id with
           | None => <[patient_id := []]> patient_json_dict
           | Some _ => patient_json_dict
           end in
  <[patient_id := default [] (d !! patient_id) ++ [json_path]]> d.

Definition extract_patient_json_mapping (extract_path : string) (t : tree)
  : gmap string (list string) :=
  let json_files := collect_json_files (os_walk extract_path t) in
  foldl add_json_path ∅ json_files.

(** *** [load_annotations] (lines 90-116) *)

(** The messages [st.warning] and [st.error] put on the page: the fixed text
    and the exception formatted after it. *)
Inductive ui_event : Type :=
| st_warning (text : string) (e : exn)
| st_error (text : string) (e : exn).

(** One entry of [annotation_data]. *)
Record annotation : Type := Annotation {
  x_coords : list pyval;
  y_coords : list pyval;
  label : string;
  color : pyval
}.

(** The body of the [for annotation in annotations] loop, lines 97-111:
    [None] when the entry has no ['cgPoints']. *)
Definition load_annotation_entry (entry : pyval) : result (option annotation) :=
  has_points ← contains "cgPoints" entry;
  if (has_points : bool) then
    points ← getitem entry "cgPoints";
    pts ← iter points;
    xs ← mapM (fun point => getitem point "x") pts;
    ys ← mapM (fun point => getitem point "y") pts;
    lab ← get entry "label" (PStr "Unknown") ≫= strip;
    col ← get entry "color" (PStr "#FF0000");
    Ok (Some (Annotation xs ys lab col))
  else Ok None.

Fixpoint load_annotations_loop (entries : list pyval) (annotation_data : list annotation)
  : result (list annotation) :=
  match entries with
  | [] => Ok annotation_data
  | entry :: entries' =>
      r ← load_annotation_entry entry;
      load_annotations_loop entries'
        (match r with Some a => annotation_data ++ [a] | None => annotation_data end)
  end.

(** The [try] block: [open_json json_path] stands for opening the file and
    [json.load]; it raises on an I/O or a parse error. *)
Definition load_annotations_try (open_json : string → result pyval) (json_path : string)
  : result (list annotation) :=
  annotations ← open_json json_path;
  entries ← iter annotations;
  load_annotations_loop entries [].

(** The function: its return value and the warnings it shows. *)
Definition load_annotations (open_json : string → result pyval) (json_path : string)
  : list annotation * list ui_event :=
  match load_annotations_try open_json json_path with
  | Ok annotation_data => (annotation_data, [])
  | Raise e => ([], [st_warning "Error reading annotation file: " e])
  end.

(** *** Decoded DICOM objects *)

(** The value of a text element: one string, several (a value with a
    backslash in it decodes to a [MultiValue]), or none. *)
Inductive element_value : Type :=
| Text (s : string)
| MultiValue (l : list string)
| NoValue.

(** Reading an attribute of a dataset returns its value or raises:
    [AttributeError] when the element is absent, another exception when the
    element is there and cannot be decoded. *)
Record code_item : Type := CodeItem {
  CodeMeaning : result element_value
}.

(** [image.shape[0]] and [image.shape[1]] of the pixel array. *)
Record ndarray : Type := NdArray { shape0 : Z; shape1 : Z }.

Record dataset : Type := Dataset {
  ViewCodeSequence : result (list code_item);
  pixel_array : result ndarray
}.

(** [hasattr(obj, name)]: false on [AttributeError] only; any other exception
    of the attribute access goes through. *)
Definition hasattr {A : Type} (access : result A) : result bool :=
  match access with
  | Ok _ => Ok true
  | Raise AttributeError => Ok false
  | Raise e => Raise e
  end.

(** [value.lower()]: only a str has the method. *)
Definition lower_method (v : element_value) : result string :=
  match v with
  | Text s => Ok (PyStr.lower s)
  | _ => Raise AttributeError
  end.

(** *** [is_mlo_view] (lines 179-192) *)

(** The [try] block: [Some b] when it reaches its [return], [None] when it
    falls through to the final [return False]. *)
Definition is_mlo_view_try (dcm : dataset) : result (option bool) :=
  has_seq ← hasattr (ViewCodeSequence dcm);
  if (has_seq : bool) then
    view_seq ← ViewCodeSequence dcm;
    match view_seq with
    | [] => Ok None
    | item0 :: _ =>
        has_meaning ← hasattr (CodeMeaning item0);
        if (has_meaning : bool) then
          code_meaning ← CodeMeaning item0 ≫= lower_method;
          Ok (Some (PyStr.contains "medio-lateral oblique" code_meaning
                    || PyStr.contains "mlo" code_meaning))
        else Ok None
    end
  else Ok None.

Definition is_mlo_view (dcm : dataset) : bool * list ui_event :=
  match is_mlo_view_try dcm with
  | Ok (Some b) => (b, [])
  | Ok None => (false, [])
  | Raise e => (false, [st_warning "Error checking MLO view: " e])
  end.

(** *** [display_dicom_with_annotation] (lines 119-176) *)

(** A legend handle, [patches.Patch(facecolor, alpha, edgecolor, label)]. *)
Record patch : Type := Patch {
  facecolor : pyval;
  patch_alpha : decimal;
  edgecolor : pyval;
  patch_label : string
}.

(** The calls made on the figure and its axes, in the order they are made. *)
Inductive plot_call : Type :=
| subplots (width height : Z)
| imshow (image : ndarray) (cmap interpolation : string)
| set_xlim (left right : Z)
| set_ylim (bottom top : Z)
| plot (xs ys : list pyval) (color : pyval) (linewidth : Z)
| fill (xs ys : list pyval) (color : pyval) (alpha : decimal)
| legend (handles : list patch) (loc : string) (bbox_to_anchor : Z * Z)
         (title fontsize : string)
| axis (arg : string)
| subplots_adjust.

Definition figure : Type := list plot_call.

(** The literal [0.2] *)
Definition alpha_02 : decimal := Decimal 2 (-1).

(** [l.append(l[0])], which raises [IndexError] on an empty list. *)
Definition append_first (l : list pyval) : result (list pyval) :=
  match l with
  | [] => Raise IndexError
  | x :: _ => Ok (l ++ [x])
  end.

(** Truth value of the two optional arguments in [if annotation_path and
    show_annotations]: [None], the empty string and the dict of length 0 are
    false. *)
Definition truthy_path (annotation_path : option string) : bool :=
  match annotation_path with
  | Some p => negb (String.eqb p "")
  | None => false
  end.

Definition truthy_map (show_annotations : option (gmap string bool)) : bool :=
  match show_annotations with
  | Some m => negb (Nat.eqb (size m) 0)
  | None => false
  end.

(** [show_annotations.get(label, True)] *)
Definition shown (show_annotations : gmap string bool) (a : annotation) : bool :=
  default true (show_annotations !! label a).

(** The loop of lines 141-161: the calls made so far and [legend_elements]. *)
Fixpoint draw_annotations (show_annotations : gmap string bool) (annotations : list annotation)
    (calls : list plot_call) (legend_elements : list patch)
  : result (list plot_call * list patch) :=
  match annotations with
  | [] => Ok (calls, legend_elements)
  | a :: annotations' =>
      calls' ←
        (if shown show_annotations a then
           xs ← append_first (x_coords a);
           ys ← append_first (y_coords a);
           Ok (calls ++ [plot xs ys (color a) 2; fill xs ys (color a) alpha_02])
         else Ok calls);
      draw_annotations show_annotations annotations' calls'
        (legend_elements ++ [Patch (color a) alpha_02 (color a) (label a)])
  end.

(** The services the viewer calls: reading a JSON file, decoding a DICOM file,
    the series table and the series download ([nbia.downloadSeries] fills a
    directory, given what it holds, or raises). *)
Record services : Type := Services {
  open_json : string → result pyval;
  dcmread : string → result dataset;
  series : list (string * string);
  downloadSeries : list string → string → tree → result tree
}.

Definition display_dicom_with_annotation (sv : services) (dicom_path : string)
    (annotation_path : option string) (show_annotations : option (gmap string bool))
  : list ui_event * result figure :=
  match dcmread sv dicom_path ≫= pixel_array with
  | Raise e => ([], Raise e)
  | Ok image =>
      let calls := [subplots 10 10; imshow image "gray" "nearest";
                    set_xlim 0 (shape1 image); set_ylim (shape0 image) 0] in
      let '(warnings, drawn) :=
        match annotation_path, show_annotations with
        | Some path, Some m =>
            if truthy_path annotation_path && truthy_map show_annotations then
              let '(annotations, warnings) := load_annotations (open_json sv) path in
              (warnings, draw_annotations m annotations calls [])
            else ([], Ok (calls, []))
        | _, _ => ([], Ok (calls, []))
        end in
      (warnings,
       '(calls, legend_elements) ← drawn;
       let calls :=
         match legend_elements with
         | [] => calls
         | _ => calls ++ [legend legend_elements "upper left" (0, 1)%Z
                                 "Annotation Type" "large"]
         end in
       Ok (calls ++ [axis "off"; subplots_adjust]))
  end.

(** *** The per-patient step of [main] (lines 268-322) *)

(** [st.session_state], lines 199-206. *)
Record session_state : Type := SessionState {
  current_patient_index : nat;
  patient_images : gmap string (list string * list string);
  images_downloaded : gset string;
  annotation_toggles : gmap string (gmap string bool)
}.

Definition initial_session : session_state := SessionState 0 ∅ ∅ ∅.

(** The download directories on disk, by path: [os.makedirs(path,
    exist_ok=True)], [os.path.exists] as a lookup, [os.listdir]. *)
Definition makedirs (path : string) (disk : gmap string tree) : gmap string tree :=
  match disk !! path with
  | Some _ => disk
  | None => <[path := Dir [] []]> disk
  end.

Definition listdir (t : tree) : list string :=
  map fst (tree_subdirs t) ++ tree_files t.

(** Lines 289-312, for one file of the walk: the two lists and the warnings
    shown so far. *)
Definition process_dicom_file (sv : services) (selected_patient : string)
    (patient_json_files : list string)
    (acc : list string * list string * list ui_event) (root file : string)
  : list string * list string * list ui_event :=
  let '(mlo_images, mlo_annotations, events) := acc in
  if PyStr.endswith file ".dcm" then
    let dcm_path := PyStr.join root file in
    match (dcm ← dcmread sv dcm_path; _ ← hasattr (ViewCodeSequence dcm); Ok dcm) with
    | Raise e =>
        (mlo_images, mlo_annotations,
         events ++ [st_warning ("Error reading DICOM file " ++ file ++ ": ")%string e])
    | Ok dcm =>
        let '(is_mlo, warnings) := is_mlo_view dcm in
        if is_mlo then
          let matching_annotations :=
            filter (fun json_file => selected_patient = patient_id_of json_file)
                   patient_json_files in
          match matching_annotations with
          | first :: _ =>
              (mlo_images ++ [dcm_path], mlo_annotations ++ [first], events ++ warnings)
          | [] => (mlo_images, mlo_annotations, events ++ warnings)
          end
        else (mlo_images, mlo_annotations, events ++ warnings)
    end
  else acc.

(** Lines 282-312: the two nested loops over the walk. *)
Definition collect_mlo (sv : services) (selected_patient : string)
    (patient_json_files : list string) (walk : list (string * list string * list string))
  : list string * list string * list ui_event :=
  foldl (fun acc '(root, _, files) =>
           foldl (fun acc file =>
                    process_dicom_file sv selected_patient patient_json_files acc root file)
                 acc files)
        ([], [], []) walk.

(** Lines 268-322: the session state, the disk and the messages after the
    step for [selected_patient]. *)
Definition process_patient (sv : services) (patient_json_dict : gmap string (list string))
    (selected_patient : string) (st : session_state) (disk : gmap string tree)
  : session_state * gmap string tree * list ui_event :=
  if bool_decide (selected_patient ∈ images_downloaded st) then (st, disk, [])
  else
    let matching_series := filter (fun row => fst row = selected_patient) (series sv) in
    match matching_series with
    | [] => (st, disk, [])
    | _ =>
        let text := ("Error processing patient " ++ selected_patient ++ ": ")%string in
        let series_uid_list := map snd matching_series in
        let downloadPath := PyStr.join "images" selected_patient in
        let disk := makedirs downloadPath disk in
        let here := default (Dir [] []) (disk !! downloadPath) in
        let fetched :=
          if negb (bool_decide (is_Some (disk !! downloadPath)))
             || bool_decide (listdir here = [])
          then downloadSeries sv series_uid_list downloadPath here
          else Ok here in
        match fetched with
        | Raise e => (st, disk, [st_error text e])
        | Ok t =>
            let disk := <[downloadPath := t]> disk in
            match patient_json_dict !! selected_patient with
            | None => (st, disk, [st_error text (KeyError selected_patient)])
            | Some patient_json_files =>
                let '(mlo_images, mlo_annotations, events) :=
                  collect_mlo sv selected_patient patient_json_files
                              (os_walk downloadPath t) in
                (SessionState (current_patient_index st)
                   (<[selected_patient := (mlo_images, mlo_annotations)]> (patient_images st))
                   ({[selected_patient]} ∪ images_downloaded st)
                   (annotation_toggles st),
                 disk, events)
            end
        end
    end.

(** The session states the step can produce, from the initial one, the
    services and the index being those of the whole session. *)
Inductive reachable (sv : services) (patient_json_dict : gmap string (list string))
  : session_state → gmap string tree → Prop :=
| reachable_init disk : reachable sv patient_json_dict initial_session disk
| reachable_step st disk selected_patient st' disk' events :
    reachable sv patient_json_dict st disk →
    process_patient sv patient_json_dict selected_patient st disk = (st', disk', events) →
    reachable sv patient_json_dict st' disk'.

End Viewer.

(** ** What the specification talks about

    Definitions that follow the words of the specification rather than the
    source: the files of a directory tree, the record the Annotation Loader is
    described to build, and the parts of a figure a reader looks at. *)

Module Spec.
Import Py Viewer.

(** [file_in t ds f]: the file named [f] lies in the directory reached from
    the root of [t] through the sub-directories [ds]. *)
Inductive file_in : tree → list string → string → Prop :=
| file_here files subdirs f :
    f ∈ files → file_in (Dir files subdirs) [] f
| file_below files subdirs name t ds f :
    (name, t) ∈ subdirs → file_in t ds f →
    file_in (Dir files subdirs) (name :: ds) f.

(** The path of that file, below [top]. *)
Definition path_of (top : string) (ds : list string) (f : string) : string :=
  PyStr.join (foldl PyStr.join top ds) f.

(** A file name without a path separator, [f.rfind('/') == -1]. *)
Definition plain_name (f : string) : Prop := PyStr.rfind PyStr.sep f = None.

(** Every file name of the tree is plain, as the names a file system lists. *)
Fixpoint plain_names (t : tree) : bool :=
  match t with
  | Dir files subdirs =>
      forallb (fun f => bool_decide (plain_name f)) files
      && forallb (fun nt => plain_names (snd nt)) subdirs
  end.

(** A field of a JSON object. *)
Definition field (k : string) (v : pyval) : option pyval :=
  match v with
  | PDict kvs => dict_lookup k kvs
  | _ => None
  end.

(** The annotation file format (External Interfaces): every element is an
    object; its [cgPoints], when there, is an array of objects with an [x]
    and a [y]; its [label], when there, is a string. *)
Definition is_point (v : pyval) : bool :=
  bool_decide (is_Some (field "x" v)) && bool_decide (is_Some (field "y" v)).

Definition well_formed_entry (v : pyval) : bool :=
  match v with
  | PDict kvs =>
      match dict_lookup "cgPoints" kvs with
      | None => true
      | Some (PList points) => forallb is_point points
      | Some _ => false
      end
      && match dict_lookup "label" kvs with
         | None | Some (PStr _) => true
         | Some _ => false
         end
  | _ => false
  end.

(** The record of an object with a points list, as the specification
    describes it, the label stripped; no record without a points list. *)
Definition described_label (entry : pyval) : string :=
  match field "label" entry with
  | Some (PStr s) => PyStr.strip s
  | _ => "Unknown"
  end.

Definition described_record (entry : pyval) : option annotation :=
  match field "cgPoints" entry with
  | Some (PList points) =>
      Some {| x_coords := omap (field "x") points;
              y_coords := omap (field "y") points;
              label := described_label entry;
              color := default (PStr "#FF0000") (field "color" entry) |}
  | _ => None
  end.

Definition described_records (entries : list pyval) : list annotation :=
  omap described_record entries.

(** The same record with the label field taken as it is in the file. *)
Definition unstripped_label (entry : pyval) : string :=
  match field "label" entry with
  | Some (PStr s) => s
  | _ => "Unknown"
  end.

(** A case-insensitive occurrence of [needle] in [text]: some substring of
    [text] lowers to [needle]. *)
Definition occurs_ignoring_case (needle text : string) : Prop :=
  ∃ pre mid post, text = (pre ++ mid ++ post)%string ∧ PyStr.lower mid = needle.




(** A polygon closed by repeating its first point as its last. *)
Definition closed (l : list pyval) : list pyval :=
  match l with
  | [] => []
  | x :: _ => l ++ [x]
  end.

(** A label is enabled when the map sends it to true or does not mention it. *)
Definition enabled (show_annotations : gmap string bool) (a : annotation) : Prop :=
  show_annotations !! label a ≠ Some false.

Global Instance enabled_dec m a : Decision (enabled m a).
Proof. unfold enabled. apply _. Defined.

Definition legend_entry (a : annotation) : patch :=
  Patch (color a) alpha_02 (color a) (label a).

(** A polygon the renderer can close: disabled, or with a first point. *)
Definition closable (show_annotations : gmap string bool) (a : annotation) : bool :=
  negb (bool_decide (enabled show_annotations a))
  || match x_coords a with [] => false | _ :: _ => true end.



(** The calls the renderer is described to add for one annotation, and the
    figure it is described to return for an image and a list of annotations. *)
Definition polygon_calls (m : gmap string bool) (a : annotation) : list plot_call :=
  if decide (enabled m a)
  then [plot (closed (x_coords a)) (closed (y_coords a)) (color a) 2;
        fill (closed (x_coords a)) (closed (y_coords a)) (color a) alpha_02]
  else [].

Definition rendered (image : ndarray) (m : gmap string bool) (annotations : list annotation)
  : figure :=
  [subplots 10 10; imshow image "gray" "nearest";
   set_xlim 0 (shape1 image); set_ylim (shape0 image) 0]
  ++ flat_map (polygon_calls m) annotations
  ++ match annotations with
     | [] => []
     | _ => [legend (map legend_entry annotations) "upper left" (0, 1)%Z
                    "Annotation Type" "large"]
     end
  ++ [axis "off"; subplots_adjust].

(** The Patient Image Set.  [qualifies]: the file decodes to the target view
    and the patient has an annotation file; [first_match]: the file is the
    first annotation file of the patient; [paired]: what holds of the two
    lists while they are built. *)
Section ImageSet.
Context (sv : services) (selected_patient : string) (patient_json_files : list string).

Definition qualifies (dcm_path : string) : Prop :=
  ∃ dcm, dcmread sv dcm_path = Ok dcm
         ∧ fst (is_mlo_view dcm) = true
         ∧ ∃ json_file, json_file ∈ patient_json_files
                        ∧ patient_id_of json_file = selected_patient.

Definition first_match (json_file : string) : Prop :=
  head (filter (fun j => selected_patient = patient_id_of j) patient_json_files)
  = Some json_file.

Definition paired (acc : list string * list string * list ui_event) : Prop :=
  Forall qualifies (fst (fst acc))
  ∧ length (fst (fst acc)) = length (snd (fst acc))
  ∧ Forall first_match (snd (fst acc)).

End ImageSet.

End Spec.

(** ** Sample inputs *)

Module Samples.
Import Py Viewer.

Definition point (x y : Z) : pyval := PDict [("x", PInt x); ("y", PInt y)].

(** Two polygons with the same label. *)
Definition two_masses : pyval :=
  PList [PDict [("cgPoints", PList [point 0 0; point 4 0; point 4 4]);
                ("label", PStr "Mass"); ("color", PStr "#00FF00")];
         PDict [("cgPoints", PList [point 5 5; point 9 5; point 9 9]);
                ("label", PStr "Mass"); ("color", PStr "#00FF00")]].

(** A mass and a calcification. *)
Definition two_labels : pyval :=
  PList [PDict [("cgPoints", PList [point 0 0; point 4 0; point 4 4]);
                ("label", PStr "Mass"); ("color", PStr "#00FF00")];
         PDict [("cgPoints", PList [point 5 5; point 9 5]);
                ("label", PStr "Calcification")]].

Definition mlo_dataset : dataset :=
  Dataset (Ok [CodeItem (Ok (Text "medio-lateral oblique"))]) (Ok (NdArray 20 10)).

Definition cc_dataset : dataset :=
  Dataset (Ok [CodeItem (Ok (Text "cranio-caudal"))]) (Ok (NdArray 20 10)).

(** Every JSON file holds [file]; a DICOM file decodes to the cranio-caudal
    view when its name says so, to the oblique view otherwise; the catalogue
    has one series, of patient [D1-0001], and a download brings two images. *)
Definition sample_services (file : pyval) : services :=
  Services (fun _ => Ok file)
           (fun path => if PyStr.contains "cc" path then Ok cc_dataset else Ok mlo_dataset)
           [("D1-0001", "1.2.3")]
           (fun _ _ _ => Ok (Dir ["1-1.dcm"; "1-2-cc.dcm"; "LICENSE"] [])).

Definition sample_index : gmap string (list string) :=
  {[ "D1-0001" := ["extracted/D1-0001_a.json"; "extracted/D1-0001_b.json"] ]}.

(** The session after the step for patient [D1-0001], from a fresh session
    and an empty disk. *)
Definition sample_session : session_state :=
  fst (fst (process_patient (sample_services two_labels) sample_index "D1-0001"
                            initial_session ∅)).

End Samples.

(** ** Readings of results, figures and walks

    Small definitions the theorems on the loader, the renderer and the
    per-patient loops are stated with. *)

Module Readings.
Import Py Viewer Spec.

(** A computation that returned. *)
Definition succeeds {A : Type} (r : result A) : bool :=
  match r with Ok _ => true | Raise _ => false end.

(** The keys of a top-level JSON object in which ['cgPoints'] occurs. *)
Definition names_points (kv : string * pyval) : bool :=
  PyStr.contains "cgPoints" (fst kv).

(** The figure of an image alone: what lines 127-134 and 171-174 call. *)
Definition image_only (image : ndarray) : figure :=
  [subplots 10 10; imshow image "gray" "nearest";
   set_xlim 0 (shape1 image); set_ylim (shape0 image) 0;
   axis "off"; subplots_adjust].

(** The calls that lay annotations over the image. *)
Definition is_overlay_call (c : plot_call) : bool :=
  match c with
  | plot _ _ _ _ | fill _ _ _ _ | legend _ _ _ _ _ => true
  | _ => false
  end.

(** Lines 292-296: the file is decoded and its view-code element probed. *)
Definition read_and_probe (sv : services) (dcm_path : string) : result dataset :=
  dcm ← dcmread sv dcm_path; _ ← hasattr (ViewCodeSequence dcm); Ok dcm.

(** The file decodes and the View Classifier answers true on it. *)
Definition is_target (sv : services) (dcm_path : string) : bool :=
  match read_and_probe sv dcm_path with
  | Ok dcm => fst (is_mlo_view dcm)
  | Raise _ => false
  end.

(** The paths of the [.dcm] files of a walk, in the order of the walk. *)
Definition dicom_paths (walk : list (string * list string * list string)) : list string :=
  flat_map (fun '(root, _, files) =>
              map (PyStr.join root) (filter (fun f => PyStr.endswith f ".dcm" = true) files))
           walk.

(** The annotation files of the patient among [patient_json_files], as line
    302-305 selects them. *)
Definition matching (selected_patient : string) (patient_json_files : list string)
  : list string :=
  filter (fun json_file => selected_patient = patient_id_of json_file) patient_json_files.

(** What lines 300-309 add to the two lists for a path that was read. *)
Definition stored_for (sv : services) (selected_patient : string)
    (patient_json_files : list string) (dcm_path : string) : list (string * string) :=
  if is_target sv dcm_path then
    match matching selected_patient patient_json_files with
    | first :: _ => [(dcm_path, first)]
    | [] => []
    end
  else [].

(** The warnings line 289-312 show for one file of the walk. *)
Definition file_events (sv : services) (root file : string) : list ui_event :=
  if PyStr.endswith file ".dcm" then
    match read_and_probe sv (PyStr.join root file) with
    | Raise e => [st_warning ("Error reading DICOM file " ++ file ++ ": ")%string e]
    | Ok dcm => snd (is_mlo_view dcm)
    end
  else [].

(** An attribute access of the View Classifier raises [e]: the sequence or
    the code meaning of its first item is there and cannot be read, or the
    code meaning has no [lower]. *)
Definition access_error (dcm : dataset) (e : exn) : Prop :=
  (ViewCodeSequence dcm = Raise e ∧ e ≠ AttributeError)
  ∨ (∃ item rest, ViewCodeSequence dcm = Ok (item :: rest)
                  ∧ ((CodeMeaning item = Raise e ∧ e ≠ AttributeError)
                     ∨ (∃ value, CodeMeaning item = Ok value
                                 ∧ lower_method value = Raise e))).

(** The sessions that follow a session, step after step. *)
Inductive follows (sv : services) (patient_json_dict : gmap string (list string))
  : session_state * gmap string tree → session_state * gmap string tree → Prop :=
| follows_refl s : follows sv patient_json_dict s s
| follows_step s st disk selected_patient st' disk' events :
    follows sv patient_json_dict s (st, disk) →
    process_patient sv patient_json_dict selected_patient st disk = (st', disk', events) →
    follows sv patient_json_dict s (st', disk').

End Readings.

(** ** More sample inputs *)

Module MoreSamples.
Import Py Viewer Samples.

(** The disk after the sample step, and the session after a second step for
    the same patient. *)
Definition sample_disk : gmap string tree :=
  snd (fst (process_patient (sample_services two_labels) sample_index "D1-0001"
                            initial_session ∅)).

Definition second_session : session_state :=
  fst (fst (process_patient (sample_services two_labels) sample_index "D1-0001"
                            sample_session sample_disk)).

Definition second_disk : gmap string tree :=
  snd (fst (process_patient (sample_services two_labels) sample_index "D1-0001"
                            sample_session sample_disk)).

(** Services whose download fails. *)
Definition offline_services : services :=
  Services (fun _ => Ok two_labels) (fun _ => Ok mlo_dataset)
           [("D1-0001", "1.2.3")]
           (fun _ _ _ => Raise (LibraryError "connection refused")).

End MoreSamples.

(** ** The archive: [download_and_extract_zip] (lines 36-61) *)

Module Archive.
Import Py Viewer.

(** What a path of the cache names on disk: a file with its content, or a
    directory with what it holds. *)
Inductive node : Type :=
| FileNode (content : string)
| DirNode (t : tree).

(** The two library calls of the function: [requests.get(url).content], and
    [zipfile.ZipFile(zip_path).extractall(extract_path)] into a directory just
    made, which leaves some files there and may raise, before or after. *)
Record web : Type := Web {
  http_get : string → result string;
  extractall : string → tree * option exn
}.

Definition url : string :=
  "https://www.cancerimagingarchive.net/wp-content/uploads/TOMPEI-CMMD_v01_20241220.zip".
Definition cache_dir : string := "cached_data".
Definition zip_path : string := PyStr.join cache_dir "TOMPEI-CMMD.zip".
Definition extract_path : string := PyStr.join cache_dir "extracted".

(** [os.makedirs(path, exist_ok=True)]: nothing to do for a directory, an
    error for a file of that name. *)
Definition makedirs_exist_ok (path : string) (disk : gmap string node)
  : result (gmap string node) :=
  match disk !! path with
  | None => Ok (<[path := DirNode (Dir [] [])]> disk)
  | Some (DirNode _) => Ok disk
  | Some (FileNode _) => Raise (OSError "File exists")
  end.

(** The function: the disk it leaves and what it returns or raises. *)
Definition download_and_extract_zip (w : web) (disk : gmap string node)
  : gmap string node * result string :=
  match makedirs_exist_ok cache_dir disk with
  | Raise e => (disk, Raise e)
  | Ok disk =>
      let downloaded :=
        match disk !! zip_path with
        | None =>
            match http_get w url with
            | Ok content => Ok (<[zip_path := FileNode content]> disk)
            | Raise e => Raise e
            end
        | Some _ => Ok disk
        end in
      match downloaded with
      | Raise e => (disk, Raise e)
      | Ok disk =>
          match disk !! extract_path with
          | None =>
              let disk := <[extract_path := DirNode (Dir [] [])]> disk in
              match disk !! zip_path with
              | Some (FileNode content) =>
                  let '(t, raised) := extractall w content in
                  let disk := <[extract_path := DirNode t]> disk in
                  match raised with
                  | Some e => (disk, Raise e)
                  | None => (disk, Ok extract_path)
                  end
              | _ => (disk, Raise (OSError "Is a directory"))
              end
          | Some _ => (disk, Ok extract_path)
          end
      end
  end.

(** A disk on which the cache directory, the archive and the extraction
    directory are all there. *)
Definition settled (disk : gmap string node) : Prop :=
  (∃ t, disk !! cache_dir = Some (DirNode t))
  ∧ is_Some (disk !! zip_path)
  ∧ is_Some (disk !! extract_path).

End Archive.

(** ** Patient selection in [main] (lines 225-258) *)

Module Navigation.
Import Py Viewer.

(** [sorted(list(patient_json_dict.keys()))]: strings compare by code point,
    and the keys of a dict are distinct, so the sorted list does not depend on
    the sorting method. *)
Definition sorted_patient_ids (patient_json_dict : gmap string (list string)) : list string :=
  merge_sort String.le (map fst (map_to_list patient_json_dict)).

(** What the user does between two runs. *)
Inductive interaction : Type :=
| ClickPrevious
| ClickNext
| SelectPatient (patient_selector : string).

(** [l.index(x)], [None] standing for [ValueError]. *)
Definition list_index (x : string) (l : list string) : option Z :=
  match list_find (fun y => y = x) l with
  | Some (i, _) => Some (Z.of_nat i)
  | None => None
  end.

(** The argument [update_patient_index] is called with, lines 249-258, from
    the list of patient ids and the index of the session. *)
Definition new_patient_index (sorted_ids : list string) (current_patient_index : Z)
    (i : interaction) : option Z :=
  match i with
  | ClickPrevious => Some (Z.max 0 (current_patient_index - 1))
  | ClickNext =>
      Some (Z.min (Z.of_nat (length sorted_ids) - 1) (current_patient_index + 1))
  | SelectPatient patient_selector => list_index patient_selector sorted_ids
  end.

End Navigation.

(** ** Toggles and figures in [main] (lines 331-367) *)

Module Page.
Import Py Viewer.

(** What the user interface answers: the value of a checkbox, from its
    label, its key and the value it is offered; and the text of
    [hash(str(annotation_states))], which stands in the key of a figure.  The
    text is taken as a function of the map: within one server process the
    hash of a text is fixed, and the labels are put into the map in the order
    of the set of labels, the same on every run over the same files. *)
Record widgets : Type := Widgets {
  checkbox : string → string → bool → bool;
  hash_text : gmap string bool → string
}.

(** What a run puts on the page. *)
Inductive page_item : Type :=
| shown (e : ui_event)
| markdown (text : string)
| pyplot (fig : figure).

(** Lines 332-336: the labels of the annotation files of the image set, each
    file loaded once per image that it is paired with. *)
Definition add_labels (types : gset string) (annotations : list annotation) : gset string :=
  foldl (fun types a => {[label a]} ∪ types) types annotations.

Definition annotation_types_of (sv : services) (json_paths : list string)
  : gset string * list ui_event :=
  foldl (fun '(types, events) json_path =>
           let '(annotations, warnings) := load_annotations (open_json sv) json_path in
           (add_labels types annotations, events ++ warnings))
        (∅, []) json_paths.

(** Lines 340-349, for one label: the toggles of the patient and
    [annotation_states] so far. *)
Definition toggle_label (ui : widgets) (selected_patient : string)
    (acc : gmap string bool * gmap string bool) (annotation_type : string)
  : gmap string bool * gmap string bool :=
  let '(patient_toggles, annotation_states) := acc in
  let patient_toggles :=
    match patient_toggles !! annotation_type with
    | Some _ => patient_toggles
    | None => <[annotation_type := true]> patient_toggles
    end in
  let state :=
    checkbox ui ("Show " ++ annotation_type)
             ("toggle_" ++ selected_patient ++ "_" ++ annotation_type)
             (default true (patient_toggles !! annotation_type)) in
  (<[annotation_type := state]> patient_toggles,
   <[annotation_type := state]> annotation_states).

Definition toggle_labels (ui : widgets) (selected_patient : string)
    (patient_toggles : gmap string bool) (annotation_types : gset string)
  : gmap string bool * gmap string bool :=
  foldl (toggle_label ui selected_patient) (patient_toggles, ∅) (elements annotation_types).

(** [figure_key], line 358. *)
Definition figure_key (ui : widgets) (dcm_path : string)
    (annotation_states : gmap string bool) : string :=
  "fig_" ++ dcm_path ++ "_" ++ hash_text ui annotation_states.

(** Lines 352-367: the figures kept in the session, the page so far, and
    whether the loop came to its end; an exception of the renderer ends it. *)
Fixpoint show_figures (sv : services) (ui : widgets) (selected_patient : string)
    (annotation_states : gmap string bool) (pairs : list (string * string))
    (figures : gmap string figure) (page : list page_item)
  : gmap string figure * list page_item * result unit :=
  match pairs with
  | [] => (figures, page, Ok ())
  | (dcm_path, json_path) :: pairs' =>
      let page := page ++ [markdown ("### Patient: " ++ selected_patient);
                           markdown ("Annotation: " ++ PyStr.basename json_path)] in
      let key := figure_key ui dcm_path annotation_states in
      match figures !! key with
      | Some fig =>
          show_figures sv ui selected_patient annotation_states pairs' figures
                       (page ++ [pyplot fig])
      | None =>
          let '(warnings, rendered) :=
            display_dicom_with_annotation sv dcm_path (Some json_path)
                                          (Some annotation_states) in
          let page := page ++ map shown warnings in
          match rendered with
          | Raise e => (figures, page, Raise e)
          | Ok fig =>
              show_figures sv ui selected_patient annotation_states pairs'
                           (<[key := fig]> figures) (page ++ [pyplot fig])
          end
      end
  end.

(** The answer of the checkbox of a label, offered the stored toggle of the
    label, or True when there is none. *)
Definition answer (ui : widgets) (selected_patient : string)
    (patient_toggles : gmap string bool) (annotation_type : string) : bool :=
  checkbox ui ("Show " ++ annotation_type)
           ("toggle_" ++ selected_patient ++ "_" ++ annotation_type)
           (default true (patient_toggles !! annotation_type)).

(** The figures a page shows, and what the loop puts on the page for images
    whose figures are kept. *)
Definition plotted (page : list page_item) : list figure :=
  omap (fun item => match item with pyplot fig => Some fig | _ => None end) page.

Definition kept_items (ui : widgets) (selected_patient : string)
    (annotation_states : gmap string bool) (figures : gmap string figure)
    (pair : string * string) : list page_item :=
  [markdown ("### Patient: " ++ selected_patient);
   markdown ("Annotation: " ++ PyStr.basename (snd pair))]
  ++ match figures !! figure_key ui (fst pair) annotation_states with
     | Some fig => [pyplot fig]
     | None => []
     end.

(** Every image of the list has its figure kept. *)
Definition all_kept (ui : widgets) (annotation_states : gmap string bool)
    (figures : gmap string figure) (pairs : list (string * string)) : bool :=
  forallb (fun pair =>
             bool_decide (is_Some (figures !! figure_key ui (fst pair) annotation_states)))
          pairs.

End Page.

Module PageSamples.
Import Py Viewer Samples Page.

(** Checkboxes that are left as offered, and one hash text for every map. *)
Definition sample_widgets : widgets := Widgets (fun _ _ value => value) (fun _ => "7").

Definition sample_pairs : list (string * string) :=
  [("tcia/1-1.dcm", "extracted/D1-0001_a.json");
   ("tcia/1-2.dcm", "extracted/D1-0001_a.json")].

(** The figure loop run on the two images, with no figure kept before. *)
Definition first_run : gmap string figure * list page_item * result unit :=
  show_figures (sample_services two_labels) sample_widgets "D1-0001"
               {[ "Mass" := true ]} sample_pairs ∅ [].

(** Services whose files named [broken] do not decode. *)
Definition broken_services : services :=
  Services (fun _ => Ok two_labels)
           (fun path => if PyStr.contains "broken" path
                        then Raise (LibraryError "not a DICOM file")
                        else Ok mlo_dataset)
           [("D1-0001", "1.2.3")]
           (fun _ _ t => Ok t).

End PageSamples.

(** ** Facts about the [str] operations *)

Module PyStrFacts.
Import PyStr.

#[local] Arguments String.append !_ _ / : simpl nomatch.


Lemma append_assoc (a b c : string) : ((a ++ b) ++ c = a ++ (b ++ c))%string.
Proof. induction a as [|x a IH]; simpl; [reflexivity | now rewrite IH]. Qed.

Lemma length_append (a b : string) :
  String.length (a ++ b) = (String.length a + String.length b)%nat.
Proof. induction a as [|x a IH]; simpl; [reflexivity | now rewrite IH]. Qed.

Lemma substring_all (s : string) : String.substring 0 (String.length s) s = s.
Proof. induction s as [|c s IH]; simpl; [reflexivity | now rewrite IH]. Qed.

Lemma substring_skip (a b : string) (m : nat) :
  String.substring (String.length a) m (a ++ b) = String.substring 0 m b.
Proof. induction a as [|x a IH]; simpl; [reflexivity | exact IH]. Qed.

Lemma slice_from_append (a b : string) : slice_from (String.length a) (a ++ b) = b.
Proof.
  unfold slice_from. rewrite substring_skip, length_append.
  replace (String.length a + String.length b - String.length a)%nat
    with (String.length b) by lia.
  apply substring_all.
Qed.

Lemma prefix_append (n s : string) : String.prefix n (n ++ s) = true.
Proof.
  induction n as [|c n IH]; simpl.
  - now destruct s.
  - destruct (ascii_dec c c); [exact IH | congruence].
Qed.

Lemma prefix_split (n h : string) :
  String.prefix n h = true → ∃ post, h = (n ++ post)%string.
Proof.
  revert h. induction n as [|c n IH]; intros h H.
  - now exists h.
  - destruct h as [|d h]; simpl in H; [discriminate|].
    destruct (ascii_dec c d) as [->|]; [|discriminate].
    destruct (IH _ H) as [post ->]. now exists post.
Qed.

(** [needle in hay] holds exactly when [hay] splits around [needle]. *)
Lemma contains_spec (n h : string) :
  contains n h = true ↔ ∃ pre post, h = (pre ++ n ++ post)%string.
Proof.
  split.
  - induction h as [|c h IH]; intros H; cbn [contains] in H.
    + rewrite orb_false_r in H. destruct (prefix_split _ _ H) as [post ->].
      now exists "", post.
    + apply orb_true_iff in H as [H|H].
      * destruct (prefix_split _ _ H) as [post ->]. now exists "", post.
      * destruct (IH H) as (pre & post & ->). now exists (String c pre), post.
  - intros (pre & post & ->). induction pre as [|c pre IH].
    + change ("" ++ n ++ post)%string with (n ++ post)%string.
      pose proof (prefix_append n post) as Hp.
      destruct (n ++ post)%string; cbn [contains]; rewrite Hp; reflexivity.
    + change (String c pre ++ n ++ post)%string with (String c (pre ++ n ++ post)).
      cbn [contains]. rewrite IH. apply orb_true_r.
Qed.

Lemma lower_append (a b : string) : lower (a ++ b) = (lower a ++ lower b)%string.
Proof. induction a as [|x a IH]; simpl; [reflexivity | now rewrite IH]. Qed.

Lemma lower_split (h a b : string) :
  lower h = (a ++ b)%string →
  ∃ a' b', h = (a' ++ b')%string ∧ lower a' = a ∧ lower b' = b.
Proof.
  revert h. induction a as [|x a IH]; intros h H; simpl in H.
  - now exists "", h.
  - destruct h as [|c h]; simpl in H; [discriminate|].
    injection H as Hx H. destruct (IH _ H) as (a' & b' & -> & Ha & Hb).
    exists (String c a'), b'. simpl. now rewrite Hx, Ha.
Qed.

(** A substring test on the lowered text is a case-insensitive substring
    test on the text. *)
Lemma contains_lower (n h : string) :
  contains n (lower h) = true ↔
  ∃ pre mid post, h = (pre ++ mid ++ post)%string ∧ lower mid = n.
Proof.
  rewrite contains_spec. split.
  - intros (pre & post & H).
    destruct (lower_split _ _ _ H) as (pre' & r & -> & _ & Hr).
    destruct (lower_split _ _ _ Hr) as (mid & post' & -> & Hm & _).
    now exists pre', mid, post'.
  - intros (pre & mid & post & -> & <-).
    exists (lower pre), (lower post). now rewrite !lower_append.
Qed.

(** [strip] removes whitespace, and only whitespace, from both ends. *)
Lemma lstrip_split (s : string) :
  ∃ pre, s = (pre ++ lstrip s)%string ∧ all_space pre = true.
Proof.
  induction s as [|c s (pre & IH & Hpre)]; simpl.
  - now exists "".
  - destruct (isspace c) eqn:Hc.
    + exists (String c pre). simpl. rewrite Hc, Hpre.
      split; [congruence | reflexivity].
    + now exists "".
Qed.

Lemma rstrip_split (s : string) :
  ∃ post, s = (rstrip s ++ post)%string ∧ all_space post = true.
Proof.
  induction s as [|c s (post & IH & Hpost)]; simpl.
  - now exists "".
  - destruct (rstrip s) as [|d r] eqn:Hr.
    + destruct (isspace c) eqn:Hc.
      * exists (String c post). simpl in *. rewrite Hc, Hpost.
        split; [congruence | reflexivity].
      * exists post. simpl in *. split; [congruence | assumption].
    + exists post. simpl in *. split; [congruence | assumption].
Qed.

Lemma lstrip_first (s : string) (c : ascii) :
  first_char (lstrip s) = Some c → isspace c = false.
Proof.
  induction s as [|d s IH]; simpl; [discriminate|].
  destruct (isspace d) eqn:Hd; [exact IH|].
  simpl. intros [= <-]. exact Hd.
Qed.

Lemma rstrip_last (s : string) (c : ascii) :
  last_char (rstrip s) = Some c → isspace c = false.
Proof.
  induction s as [|d s IH]; simpl; [discriminate|].
  destruct (rstrip s) as [|e r] eqn:Hr.
  - destruct (isspace d) eqn:Hd; simpl; [discriminate|].
    intros [= <-]. exact Hd.
  - exact IH.
Qed.

Lemma rstrip_first (s : string) (c : ascii) :
  first_char s = Some c → isspace c = false → first_char (rstrip s) = Some c.
Proof.
  destruct s as [|d s]; simpl; [discriminate|].
  intros [= ->] Hc. destruct (rstrip s); [now rewrite Hc | reflexivity].
Qed.

Lemma rstrip_first_inv (s : string) (c : ascii) :
  first_char (rstrip s) = Some c → first_char s = Some c.
Proof.
  destruct s as [|d s]; simpl; [discriminate|].
  destruct (rstrip s); [destruct (isspace d); [discriminate|] |]; simpl; auto.
Qed.

Lemma strip_spec (s : string) :
  (∃ pre post, s = (pre ++ strip s ++ post)%string
               ∧ all_space pre = true ∧ all_space post = true)
  ∧ (∀ c, first_char (strip s) = Some c → isspace c = false)
  ∧ (∀ c, last_char (strip s) = Some c → isspace c = false).
Proof.
  unfold strip. split; [|split].
  - destruct (lstrip_split s) as (pre & Hs & Hpre).
    destruct (rstrip_split (lstrip s)) as (post & Hl & Hpost).
    exists pre, post. split; [|now split].
    now rewrite <- Hl.
  - intros c Hc. apply (lstrip_first s). now apply rstrip_first_inv.
  - apply rstrip_last.
Qed.







(** Paths: [basename] undoes [join] on a plain file name. *)
Lemma rfind_append_sep (a f : string) :
  rfind sep f = None → rfind sep (a ++ String sep f) = Some (String.length a).
Proof.
  intros Hf. induction a as [|x a IH]; simpl.
  - now rewrite Hf.
  - now rewrite IH.
Qed.

Lemma basename_plain (f : string) : rfind sep f = None → basename f = f.
Proof.
  intros Hf. unfold basename. rewrite Hf. unfold slice_from.
  rewrite Nat.sub_0_r. apply substring_all.
Qed.

Lemma basename_append_sep (a f : string) :
  rfind sep f = None → basename (a ++ String sep f) = f.
Proof.
  intros Hf. unfold basename. rewrite (rfind_append_sep a f Hf).
  replace (a ++ String sep f)%string with ((a ++ String sep "") ++ f)%string
    by now rewrite append_assoc.
  replace (S (String.length a)) with (String.length (a ++ String sep ""))
    by (rewrite length_append; simpl; lia).
  apply slice_from_append.
Qed.

Lemma last_char_split (a : string) :
  (1 <= String.length a)%nat →
  ∃ a' c, a = (a' ++ String c "")%string
          ∧ String.substring (String.length a - 1) 1 a = String c "".
Proof.
  induction a as [|x a IH]; simpl; [lia|]. intros _.
  destruct a as [|y a].
  - now exists "", x.
  - destruct IH as (a' & c & Ha & Hs); [simpl; lia|].
    exists (String x a'), c. split; [simpl; now rewrite <- Ha|].
    simpl in Hs. rewrite Nat.sub_0_r in Hs. exact Hs.
Qed.

Lemma endswith_sep_split (a : string) :
  endswith a "/" = true → ∃ a', a = (a' ++ String sep "")%string.
Proof.
  unfold endswith. intros H. apply andb_true_iff in H as [Hlen Heq].
  apply Nat.leb_le in Hlen. apply String.eqb_eq in Heq.
  destruct (last_char_split a Hlen) as (a' & c & Ha & Hs).
  simpl in Heq. rewrite Hs in Heq. injection Heq as ->. now exists a'.
Qed.

Lemma startswith_sep_plain (f : string) :
  rfind sep f = None → startswith f "/" = false.
Proof.
  destruct f as [|c f]; [reflexivity|]. intros H.
  unfold startswith. cbn [String.prefix].
  destruct (ascii_dec "/" c) as [<-|]; [|reflexivity].
  cbn [rfind] in H. destruct (rfind sep f); discriminate.
Qed.

Lemma basename_join (root f : string) :
  rfind sep f = None → basename (join root f) = f.
Proof.
  intros Hf. unfold join. rewrite (startswith_sep_plain f Hf).
  destruct (String.eqb root "") eqn:Hroot; simpl.
  - apply String.eqb_eq in Hroot as ->. now apply basename_plain.
  - destruct (endswith root "/") eqn:Hend.
    + destruct (endswith_sep_split root Hend) as [a ->].
      rewrite append_assoc. now apply basename_append_sep.
    + now apply basename_append_sep.
Qed.

(** Slices: [s[:n]] against [startswith] and equality. *)
Lemma slice_to_startswith (n : nat) (k b : string) :
  String.length k = n → slice_to n b = k ↔ startswith b k = true.
Proof.
  intros <-. unfold slice_to, startswith. symmetry. apply String.prefix_correct.
Qed.

Lemma substring_short (n : nat) (b : string) :
  (String.length (String.substring 0 n b) < n)%nat → String.substring 0 n b = b.
Proof.
  revert b. induction n as [|n IH]; intros b; [simpl; destruct b; simpl; lia|].
  destruct b as [|c b]; simpl; [reflexivity|].
  intros H. rewrite IH; [reflexivity | lia].
Qed.

Lemma substring_long (n : nat) (b : string) :
  (n <= String.length b)%nat → String.length (String.substring 0 n b) = n.
Proof.
  revert b. induction n as [|n IH]; intros b; [destruct b; reflexivity|].
  destruct b as [|c b]; simpl; [lia|]. intros H. rewrite IH; lia.
Qed.

Lemma slice_to_short (n : nat) (k b : string) :
  (String.length k < n)%nat → slice_to n b = k ↔ b = k.
Proof.
  intros Hk. unfold slice_to. split.
  - intros H. rewrite <- H in Hk. rewrite <- H. symmetry. now apply substring_short.
  - intros ->. revert k Hk. induction n as [|n IH]; intros k Hk; [lia|].
    destruct k as [|c k]; simpl in *; [reflexivity|]. rewrite IH; [reflexivity | lia].
Qed.

Example strip_Mass : strip " Mass " = "Mass".
Proof. reflexivity. Qed.

Example lower_MLO : lower "Medio-Lateral Oblique" = "medio-lateral oblique".
Proof. reflexivity. Qed.

Example basename_ex : basename "cached_data/extracted/a/1234567_a.json" = "1234567_a.json".
Proof. reflexivity. Qed.

Example join_ex : join "images" "D1-0001" = "images/D1-0001".
Proof. reflexivity. Qed.

Example endswith_ex : endswith "x.json" ".json" = true /\ endswith "json" ".json" = false.
Proof. split; reflexivity. Qed.

End PyStrFacts.

(** ** Facts about the result monad *)

Module PyFacts.
Import Py.

Lemma bind_Ok {A B : Type} (a : A) (f : A → result B) : (Ok a ≫= f) = f a.
Proof. reflexivity. Qed.

Lemma bind_Raise {A B : Type} (e : exn) (f : A → result B) : (Raise e ≫= f) = Raise e.
Proof. reflexivity. Qed.

(** Runs the binds whose first computation is known. *)
Ltac run := repeat (rewrite bind_Ok || rewrite bind_Raise).

Lemma mapM_result_length {A B : Type} (f : A → result B) (l : list A) (ys : list B) :
  mapM f l = Ok ys → length ys = length l.
Proof.
  revert ys. induction l as [|x l IH]; intros ys; cbn [mapM].
  - intros [= <-]. reflexivity.
  - destruct (f x) as [y|]; [|discriminate]. run.
    destruct (mapM f l) as [k|]; [|discriminate]. run.
    intros [= <-]. cbn. now rewrite (IH k).
Qed.

End PyFacts.

(** ** The Patient Index Builder *)

Module IndexFacts.
Import Py Viewer Spec PyStrFacts.

(** Induction on a directory tree, with the hypothesis for every
    sub-directory. *)
Fixpoint tree_nested_ind (P : tree → Prop)
    (step : ∀ files subdirs, Forall (fun nt => P (snd nt)) subdirs → P (Dir files subdirs))
    (t : tree) {struct t} : P t :=
  match t with
  | Dir files subdirs =>
      step files subdirs
        ((fix all (l : list (string * tree)) : Forall (fun nt => P (snd nt)) l :=
            match l with
            | [] => List.Forall_nil _
            | (name, t') :: l' =>
                List.Forall_cons _ (name, t') l' (tree_nested_ind P step t') (all l')
            end) subdirs)
  end.

Lemma os_walk_unfold (top : string) (files : list string) (subdirs : list (string * tree)) :
  os_walk top (Dir files subdirs) =
  (top, map fst subdirs, files)
    :: flat_map (fun nt => os_walk (PyStr.join top (fst nt)) (snd nt)) subdirs.
Proof.
  cbn [os_walk]. f_equal.
  induction subdirs as [|[name t] l IH]; [reflexivity|].
  cbn [flat_map fst snd]. now rewrite IH.
Qed.

Lemma collect_json_files_cons root dirs files walk :
  collect_json_files ((root, dirs, files) :: walk) =
  map (PyStr.join root) (filter (fun f => is_annotation_filename f = true) files)
  ++ collect_json_files walk.
Proof. reflexivity. Qed.

Lemma collect_json_files_app (w1 w2 : list (string * list string * list string)) :
  collect_json_files (w1 ++ w2) = collect_json_files w1 ++ collect_json_files w2.
Proof. unfold collect_json_files. apply flat_map_app. Qed.

Lemma collect_json_files_subdirs (top : string) (subdirs : list (string * tree)) (p : string) :
  p ∈ collect_json_files
        (flat_map (fun nt => os_walk (PyStr.join top (fst nt)) (snd nt)) subdirs)
  ↔ ∃ nt, nt ∈ subdirs
          ∧ p ∈ collect_json_files (os_walk (PyStr.join top (fst nt)) (snd nt)).
Proof.
  induction subdirs as [|nt l IH]; cbn [flat_map].
  - split; [intros H; inversion H | intros (nt & H & _); inversion H].
  - rewrite collect_json_files_app, elem_of_app, IH. split.
    + intros [H | (nt' & Hin & H)].
      * exists nt. split; [left | exact H].
      * exists nt'. split; [now right | exact H].
    + intros (nt' & Hin & H). apply elem_of_cons in Hin as [-> | Hin].
      * now left.
      * right. now exists nt'.
Qed.

(** The paths collected from a walk are those of the annotation files of the
    tree, at any depth. *)
Lemma collect_json_files_spec (t : tree) (top p : string) :
  p ∈ collect_json_files (os_walk top t)
  ↔ ∃ ds f, file_in t ds f ∧ is_annotation_filename f = true ∧ p = path_of top ds f.
Proof.
  revert top. induction t as [files subdirs IH] using tree_nested_ind. intros top.
  rewrite os_walk_unfold, collect_json_files_cons, elem_of_app,
    collect_json_files_subdirs.
  split.
  - intros [H | ([name t] & Hin & H)].
    + apply list_elem_of_fmap in H as (f & -> & Hf).
      apply list_elem_of_filter in Hf as [Hann Hf].
      exists [], f. split; [now constructor | now split].
    + rewrite Forall_forall in IH. apply (IH _ Hin) in H as (ds & f & Hfile & Hann & ->).
      exists (name :: ds), f. split; [now apply file_below with t | now split].
  - intros (ds & f & Hfile & Hann & ->). inversion Hfile as [? ? ? Hf | ? ? name t ds' ? Hin Hsub]; subst.
    + left. apply list_elem_of_fmap. exists f. split; [reflexivity|].
      now apply list_elem_of_filter.
    + right. exists (name, t). split; [exact Hin|].
      rewrite Forall_forall in IH. apply (IH _ Hin). now exists ds', f.
Qed.

(** One step of the grouping loop, seen through a lookup. *)
Lemma add_json_path_lookup (m : gmap string (list string)) (p k : string) :
  add_json_path m p !! k =
  if decide (patient_id_of p = k) then Some (default [] (m !! k) ++ [p]) else m !! k.
Proof.
  unfold add_json_path.
  destruct (m !! patient_id_of p) as [l|] eqn:Hm.
  - rewrite Hm. destruct (decide (patient_id_of p = k)) as [<-|Hne].
    + now rewrite lookup_insert_eq, Hm.
    + now rewrite lookup_insert_ne.
  - rewrite lookup_insert_eq. destruct (decide (patient_id_of p = k)) as [<-|Hne].
    + now rewrite lookup_insert_eq, Hm.
    + now rewrite !lookup_insert_ne.
Qed.

Lemma foldl_add_json_path_lookup (paths : list string) (m : gmap string (list string)) (k : string) :
  foldl add_json_path m paths !! k =
  match m !! k, filter (fun p => patient_id_of p = k) paths with
  | None, [] => None
  | o, ps => Some (default [] o ++ ps)
  end.
Proof.
  revert m. induction paths as [|p paths IH]; intros m; cbn [foldl].
  - rewrite filter_nil. destruct (m !! k); [now rewrite app_nil_r | reflexivity].
  - rewrite IH, add_json_path_lookup, filter_cons.
    destruct (decide (patient_id_of p = k)) as [Hk|Hk].
    + destruct (m !! k); simpl; [now rewrite <- app_assoc | reflexivity].
    + reflexivity.
Qed.

(** The index, key by key: the paths whose patient id is the key, in the order
    of the walk; no key without a path. *)
Lemma extract_patient_json_mapping_lookup (top : string) (t : tree) (k : string) :
  extract_patient_json_mapping top t !! k =
  match filter (fun p => patient_id_of p = k) (collect_json_files (os_walk top t)) with
  | [] => None
  | ps => Some ps
  end.
Proof.
  unfold extract_patient_json_mapping.
  rewrite foldl_add_json_path_lookup, lookup_empty. reflexivity.
Qed.

Lemma plain_names_file_in (t : tree) (ds : list string) (f : string) :
  plain_names t = true → file_in t ds f → plain_name f.
Proof.
  intros Hplain Hfile. induction Hfile as [files subdirs f Hf | files subdirs name t ds f Hin _ IH];
    cbn [plain_names] in Hplain; apply andb_true_iff in Hplain as [Hfiles Hsubs].
  - rewrite forallb_forall in Hfiles. apply list_elem_of_In in Hf.
    apply Hfiles in Hf. now apply bool_decide_eq_true in Hf.
  - apply IH. rewrite forallb_forall in Hsubs. apply list_elem_of_In in Hin.
    exact (Hsubs _ Hin).
Qed.

Lemma slice_to_length (n : nat) (b : string) :
  (String.length (PyStr.slice_to n b) <= n)%nat.
Proof.
  unfold PyStr.slice_to. revert b. induction n as [|n IH]; intros [|c b]; simpl; try lia.
  specialize (IH b). lia.
Qed.

Lemma lookup_by_filter (P Q : string → Prop) `{∀ p, Decision (P p)} `{∀ p, Decision (Q p)}
    (l ps : list string) :
  (∀ p, P p ↔ Q p) →
  match filter P l with [] => None | qs => Some qs end = Some ps
  ↔ ps ≠ [] ∧ ps = filter Q l.
Proof.
  intros HPQ. rewrite (list_filter_iff P Q l HPQ).
  destruct (filter Q l) as [|q qs]; split.
  - discriminate.
  - intros [Hne ->]. now destruct Hne.
  - intros [= <-]. split; [discriminate | reflexivity].
  - intros [_ ->]. reflexivity.
Qed.

Lemma index_lookup_iff (top : string) (t : tree) (k : string) (ps : list string)
    (Q : string → Prop) `{∀ p, Decision (Q p)} :
  (∀ p, patient_id_of p = k ↔ Q p) →
  extract_patient_json_mapping top t !! k = Some ps
  ↔ ps ≠ [] ∧ ps = filter Q (collect_json_files (os_walk top t)).
Proof.
  intros HQ. rewrite extract_patient_json_mapping_lookup. now apply lookup_by_filter.
Qed.

(** The example of the specification: three annotation files of two patients
    and a hidden file. *)
Example index_of_three_files :
  extract_patient_json_mapping "extracted"
    (Dir ["1234567_a.json"; "1234567_b.json"; "9999999.json"; ".DS_Store"] [])
  = {[ "1234567" := ["extracted/1234567_a.json"; "extracted/1234567_b.json"];
       "9999999" := ["extracted/9999999.json"] ]}.
Proof.
  apply map_eq. intros k. rewrite extract_patient_json_mapping_lookup.
  destruct (decide (k = "1234567")) as [->|H1]; [reflexivity|].
  destruct (decide (k = "9999999")) as [->|H2]; [reflexivity|].
  rewrite lookup_insert_ne, lookup_singleton_ne by congruence.
  replace (collect_json_files _) with
    ["extracted/1234567_a.json"; "extracted/1234567_b.json"; "extracted/9999999.json"]
    by reflexivity.
  rewrite !filter_cons, filter_nil.
  repeat match goal with
         | |- context [decide (?a = k)] =>
             destruct (decide (a = k)) as [E|_]; [vm_compute in E; congruence|]
         end.
  reflexivity.
Qed.

(** C7, as stated, fails on a file name shorter than seven characters.  With
    the files [a.json] and [a.jsonb.json] in one directory the index has the
    six-character key [a.json], and the list under that key leaves out
    [a.jsonb.json], whose name starts with the key. *)
Lemma patient_index_short_filename :
  extract_patient_json_mapping "x" (Dir ["a.json"; "a.jsonb.json"] []) !! "a.json"
    = Some ["x/a.json"]
  ∧ String.length "a.json" ≠ 7
  ∧ "x/a.jsonb.json" ∈ collect_json_files (os_walk "x" (Dir ["a.json"; "a.jsonb.json"] []))
  ∧ PyStr.startswith (PyStr.basename "x/a.jsonb.json") "a.json" = true
  ∧ "x/a.jsonb.json" ∉ ["x/a.json"].
Proof.
  split; [reflexivity|]. split; [discriminate|].
  split; [vm_compute; apply list_elem_of_In; simpl; tauto|].
  split; [reflexivity|]. intros H. apply list_elem_of_In in H. simpl in H.
  destruct H as [H|[]]. discriminate.
Qed.

(** C7, amended.  For every directory tree whose file names are plain:
    - the paths gathered are exactly those of the files of the tree, at any
      depth, whose name does not start with a dot and ends in [.json], and the
      basename of such a path is the file name;
    - the index maps a key to the non-empty list, in the order of the walk, of
      the gathered paths whose basename's first seven characters are the key;
    - under a key of seven characters that is the list of the gathered paths
      whose basename starts with the key, under a shorter key the list of the
      gathered paths whose basename is the key, and no key is longer. *)
Theorem patient_index_by_first_seven_characters (top : string) (t : tree) :
  plain_names t = true →
  (∀ p, p ∈ collect_json_files (os_walk top t)
        ↔ ∃ ds f, file_in t ds f
                  ∧ PyStr.startswith f "." = false ∧ PyStr.endswith f ".json" = true
                  ∧ p = path_of top ds f ∧ PyStr.basename p = f)
  ∧ (∀ k ps, extract_patient_json_mapping top t !! k = Some ps
             ↔ ps ≠ [] ∧ ps = filter (fun p => PyStr.slice_to 7 (PyStr.basename p) = k)
                                     (collect_json_files (os_walk top t)))
  ∧ (∀ k ps, String.length k = 7 →
             extract_patient_json_mapping top t !! k = Some ps
             ↔ ps ≠ [] ∧ ps = filter (fun p => PyStr.startswith (PyStr.basename p) k = true)
                                     (collect_json_files (os_walk top t)))
  ∧ (∀ k ps, (String.length k < 7)%nat →
             extract_patient_json_mapping top t !! k = Some ps
             ↔ ps ≠ [] ∧ ps = filter (fun p => PyStr.basename p = k)
                                     (collect_json_files (os_walk top t)))
  ∧ (∀ k, is_Some (extract_patient_json_mapping top t !! k) → (String.length k <= 7)%nat).
Proof.
  intros Hplain. split; [|split; [|split; [|split]]].
  - intros p. rewrite collect_json_files_spec. unfold is_annotation_filename. split.
    + intros (ds & f & Hfile & Hann & ->). exists ds, f.
      apply andb_true_iff in Hann as [Hdot Hjson]. apply negb_true_iff in Hdot.
      repeat (split; [assumption || reflexivity|]).
      apply basename_join. exact (plain_names_file_in t ds f Hplain Hfile).
    + intros (ds & f & Hfile & Hdot & Hjson & -> & _). exists ds, f.
      now rewrite Hdot, Hjson.
  - intros k ps. now apply index_lookup_iff.
  - intros k ps Hk. apply index_lookup_iff. intros p. now apply slice_to_startswith.
  - intros k ps Hk. apply index_lookup_iff. intros p. now apply slice_to_short.
  - intros k [ps Hps]. rewrite extract_patient_json_mapping_lookup in Hps.
    destruct (filter _ _) as [|p qs] eqn:Hf; [discriminate|].
    assert (p ∈ p :: qs) as Hp by left. rewrite <- Hf in Hp.
    apply list_elem_of_filter in Hp as [<- _]. apply slice_to_length.
Qed.

Lemma patient_index_by_first_seven_characters_witness :
  plain_names (Dir ["1234567_a.json"; ".DS_Store"] [("sub", Dir ["9999999.json"] [])]) = true
  ∧ ∀ k, is_Some (extract_patient_json_mapping "extracted"
                    (Dir ["1234567_a.json"; ".DS_Store"] [("sub", Dir ["9999999.json"] [])]) !! k)
         → (String.length k <= 7)%nat.
Proof.
  split; [reflexivity|].
  apply (patient_index_by_first_seven_characters "extracted"
           (Dir ["1234567_a.json"; ".DS_Store"] [("sub", Dir ["9999999.json"] [])])).
  reflexivity.
Defined.

End IndexFacts.

(** ** The Annotation Loader *)

Module LoaderFacts.
Import Py Viewer Spec PyStrFacts PyFacts.

Lemma mapM_getitem_points (k : string) (points : list pyval) :
  Forall (fun v => is_Some (field k v)) points →
  mapM (fun point => getitem point k) points = Ok (omap (field k) points).
Proof.
  induction 1 as [|v l [x Hx] _ IH]; [reflexivity|].
  destruct v as [| | | | | |kvs]; try discriminate.
  cbn in Hx. cbn. rewrite Hx. cbn. rewrite IH. reflexivity.
Qed.

Lemma is_point_fields (points : list pyval) :
  forallb is_point points = true →
  Forall (fun v => is_Some (field "x" v)) points
  ∧ Forall (fun v => is_Some (field "y" v)) points.
Proof.
  intros H. rewrite forallb_forall in H.
  split; apply Forall_forall; intros v Hv; apply list_elem_of_In, H in Hv;
    unfold is_point in Hv; apply andb_true_iff in Hv as [Hx Hy];
    now apply bool_decide_eq_true in Hx, Hy.
Qed.

(** On an entry in the annotation format the loop body builds the described
    record. *)
Lemma load_annotation_entry_well_formed (entry : pyval) :
  well_formed_entry entry = true →
  load_annotation_entry entry = Ok (described_record entry).
Proof.
  destruct entry as [| | | | |l|kvs]; try discriminate.
  unfold well_formed_entry, load_annotation_entry, described_record, described_label.
  cbn [contains getitem get field]. run.
  destruct (dict_lookup "cgPoints" kvs) as [v|] eqn:Hpoints; [|reflexivity].
  rewrite bool_decide_eq_true_2 by eauto.
  destruct v as [| | | | |points|]; try discriminate.
  intros H. apply andb_true_iff in H as [Hpts Hlabel].
  destruct (is_point_fields points Hpts) as [Hx Hy].
  run. cbn [iter]. run.
  rewrite (mapM_getitem_points "x" points Hx), (mapM_getitem_points "y" points Hy). run.
  destruct (dict_lookup "label" kvs) as [v|]; [|reflexivity].
  destruct v; try discriminate. reflexivity.
Qed.

Lemma load_annotations_loop_well_formed (entries : list pyval) (acc : list annotation) :
  forallb well_formed_entry entries = true →
  load_annotations_loop entries acc = Ok (acc ++ described_records entries).
Proof.
  revert acc. induction entries as [|entry entries IH]; intros acc H.
  - cbn. now rewrite app_nil_r.
  - cbn [forallb] in H. apply andb_true_iff in H as [Hentry Hrest].
    cbn [load_annotations_loop]. rewrite (load_annotation_entry_well_formed entry Hentry).
    run. rewrite (IH _ Hrest).
    unfold described_records. simpl omap.
    destruct (described_record entry); [now rewrite <- app_assoc | reflexivity].
Qed.

Lemma load_annotations_well_formed (open_json : string → result pyval) (json_path : string)
    (entries : list pyval) :
  open_json json_path = Ok (PList entries) →
  forallb well_formed_entry entries = true →
  load_annotations open_json json_path = (described_records entries, []).
Proof.
  intros Hfile Hwf. unfold load_annotations, load_annotations_try.
  rewrite Hfile. run. cbn [iter]. run.
  now rewrite (load_annotations_loop_well_formed entries [] Hwf).
Qed.

(** The loader never hands an exception to its caller: it returns the records
    and no warning, or no record and one warning. *)
Lemma load_annotations_outcome (open_json : string → result pyval) (json_path : string) :
  (∃ data, load_annotations_try open_json json_path = Ok data
           ∧ load_annotations open_json json_path = (data, []))
  ∨ (∃ e, load_annotations_try open_json json_path = Raise e
          ∧ load_annotations open_json json_path
            = ([], [st_warning "Error reading annotation file: " e])).
Proof.
  unfold load_annotations.
  destruct (load_annotations_try open_json json_path) as [data|e]; [left | right]; eauto.
Qed.

(** Every loaded polygon has as many abscissas as ordinates. *)
Lemma load_annotation_entry_lengths (entry : pyval) (a : annotation) :
  load_annotation_entry entry = Ok (Some a) → length (x_coords a) = length (y_coords a).
Proof.
  unfold load_annotation_entry.
  destruct (contains "cgPoints" entry) as [[]|]; run; try discriminate.
  destruct (getitem entry "cgPoints") as [points|]; run; [|discriminate].
  destruct (iter points) as [pts|]; run; [|discriminate].
  destruct (mapM (fun point => getitem point "x") pts) as [xs|] eqn:Hx; run; [|discriminate].
  destruct (mapM (fun point => getitem point "y") pts) as [ys|] eqn:Hy; run; [|discriminate].
  destruct (get entry "label" _) as [lab|]; run; [|discriminate].
  destruct (strip lab); run; [|discriminate].
  destruct (get entry "color" _); run; [|discriminate].
  intros [= <-]. cbn.
  now rewrite (mapM_result_length _ _ _ Hx), (mapM_result_length _ _ _ Hy).
Qed.

Lemma load_annotations_loop_lengths (entries : list pyval) (acc data : list annotation) :
  Forall (fun a => length (x_coords a) = length (y_coords a)) acc →
  load_annotations_loop entries acc = Ok data →
  Forall (fun a => length (x_coords a) = length (y_coords a)) data.
Proof.
  revert acc. induction entries as [|entry entries IH]; intros acc Hacc; cbn [load_annotations_loop].
  - now intros [= <-].
  - destruct (load_annotation_entry entry) as [r|] eqn:Hentry; run; [|discriminate].
    apply IH. destruct r as [a|]; [|exact Hacc].
    apply Forall_app. split; [exact Hacc|]. constructor; [|constructor].
    now apply (load_annotation_entry_lengths entry).
Qed.

Lemma load_annotations_lengths (open_json : string → result pyval) (json_path : string) :
  Forall (fun a => length (x_coords a) = length (y_coords a))
         (fst (load_annotations open_json json_path)).
Proof.
  unfold load_annotations, load_annotations_try.
  destruct (open_json json_path) as [v|]; run; cbn [fst]; [|constructor].
  destruct (iter v) as [entries|]; run; cbn [fst]; [|constructor].
  destruct (load_annotations_loop entries []) as [data|] eqn:Hloop; cbn [fst]; [|constructor].
  now apply (load_annotations_loop_lengths entries [] data).
Qed.

(** The example of the specification: three points, no label, no colour. *)
Example load_triangle :
  load_annotations
    (fun _ => Ok (PList [PDict [("cgPoints",
                                 PList [PDict [("x", PInt 0); ("y", PInt 0)];
                                        PDict [("x", PInt 1); ("y", PInt 0)];
                                        PDict [("x", PInt 1); ("y", PInt 1)]])]]))
    "triangle.json"
  = ([Annotation [PInt 0; PInt 1; PInt 1] [PInt 0; PInt 0; PInt 1]
                 "Unknown" (PStr "#FF0000")], []).
Proof. reflexivity. Qed.

(** A file that parses but leaves the format (a point without [y]) gives no
    record at all and a warning, whatever its other entries hold. *)
Example load_point_without_y :
  load_annotations
    (fun _ => Ok (PList [PDict [("cgPoints", PList [PDict [("x", PInt 0); ("y", PInt 0)]])];
                         PDict [("cgPoints", PList [PDict [("x", PInt 1)]])]]))
    "broken.json"
  = ([], [st_warning "Error reading annotation file: " (KeyError "y")]).
Proof. reflexivity. Qed.

(** C3, as stated, fails on a label with whitespace around it: the record
    holds ["Mass"], the label field of the object is [" Mass "]. *)
Lemma loader_label_differs_from_field :
  map label
    (fst (load_annotations
            (fun _ => Ok (PList [PDict [("cgPoints", PList [PDict [("x", PInt 0); ("y", PInt 0)]]);
                                        ("label", PStr " Mass ")]]))
            "a.json"))
  = ["Mass"]
  ∧ map unstripped_label
      [PDict [("cgPoints", PList [PDict [("x", PInt 0); ("y", PInt 0)]]);
              ("label", PStr " Mass ")]]
    = [" Mass "]
  ∧ "Mass" ≠ " Mass ".
Proof. split; [reflexivity|]. split; [reflexivity | discriminate]. Qed.

(** C3, amended.  For every annotation file that parses to an array in the
    annotation format, the loader returns, with no warning, one record per
    object that has a points list, in input order: [x_coords] and [y_coords]
    are the [x] and [y] fields of the points in order, [label] is the label
    field with the whitespace at both ends stripped, or ["Unknown"], and
    [color] is the color field, or ["#FF0000"].  An object without a points
    list gives no record, so a file in which no object has one gives the
    empty list. *)
Theorem loader_returns_described_records (open_json : string → result pyval)
    (json_path : string) (entries : list pyval) :
  open_json json_path = Ok (PList entries) →
  forallb well_formed_entry entries = true →
  load_annotations open_json json_path = (omap described_record entries, [])
  ∧ (∀ entry points, field "cgPoints" entry = Some (PList points) →
       described_record entry
       = Some {| x_coords := omap (field "x") points;
                 y_coords := omap (field "y") points;
                 label := match field "label" entry with
                          | Some (PStr s) => PyStr.strip s
                          | _ => "Unknown"
                          end;
                 color := default (PStr "#FF0000") (field "color" entry) |})
  ∧ (∀ entry, field "cgPoints" entry = None → described_record entry = None)
  ∧ ((∀ entry, entry ∈ entries → field "cgPoints" entry = None) →
     load_annotations open_json json_path = ([], [])).
Proof.
  intros Hfile Hwf.
  pose proof (load_annotations_well_formed open_json json_path entries Hfile Hwf) as Hload.
  split; [exact Hload|]. split; [|split].
  - intros entry points Hpoints. unfold described_record. now rewrite Hpoints.
  - intros entry Hpoints. unfold described_record. now rewrite Hpoints.
  - intros Hnone. rewrite Hload. f_equal. unfold described_records.
    clear Hfile Hwf Hload. induction entries as [|entry entries IH]; [reflexivity|].
    simpl omap. unfold described_record at 1. rewrite (Hnone entry) by left.
    apply IH. intros e He. apply Hnone. now right.
Qed.

Lemma loader_returns_described_records_witness :
  (fun _ : string =>
     Ok (PList [PDict [("label", PStr "no points")];
                PDict [("cgPoints", PList [PDict [("x", PInt 3); ("y", PInt 4)]]);
                       ("label", PStr "Mass ")]])) "a.json"
  = Ok (PList [PDict [("label", PStr "no points")];
               PDict [("cgPoints", PList [PDict [("x", PInt 3); ("y", PInt 4)]]);
                      ("label", PStr "Mass ")]])
  ∧ load_annotations
      (fun _ : string =>
         Ok (PList [PDict [("label", PStr "no points")];
                    PDict [("cgPoints", PList [PDict [("x", PInt 3); ("y", PInt 4)]]);
                           ("label", PStr "Mass ")]])) "a.json"
    = ([Annotation [PInt 3] [PInt 4] "Mass" (PStr "#FF0000")], []).
Proof.
  split; [reflexivity|].
  apply (loader_returns_described_records
           (fun _ : string =>
              Ok (PList [PDict [("label", PStr "no points")];
                         PDict [("cgPoints", PList [PDict [("x", PInt 3); ("y", PInt 4)]]);
                                ("label", PStr "Mass ")]])) "a.json" _ eq_refl eq_refl).
Defined.

(** C8.  Whenever opening or parsing the file raises, the loader shows one
    warning that carries the exception and returns the empty list: as a total
    function of its inputs it has no other way out. *)
Theorem loader_recovers_from_read_error (open_json : string → result pyval)
    (json_path : string) (e : exn) :
  open_json json_path = Raise e →
  load_annotations open_json json_path
  = ([], [st_warning "Error reading annotation file: " e]).
Proof.
  intros Hfile. unfold load_annotations, load_annotations_try. now rewrite Hfile.
Qed.

Lemma loader_recovers_from_read_error_witness :
  (fun _ : string => Raise (JSONDecodeError "Expecting value")) "a.json"
  = (Raise (JSONDecodeError "Expecting value") : result pyval)
  ∧ load_annotations (fun _ => Raise (JSONDecodeError "Expecting value")) "a.json"
    = ([], [st_warning "Error reading annotation file: " (JSONDecodeError "Expecting value")]).
Proof.
  split; [reflexivity|].
  apply (loader_recovers_from_read_error
           (fun _ => Raise (JSONDecodeError "Expecting value")) "a.json" _ eq_refl).
Defined.



End LoaderFacts.

(** ** The View Classifier *)

Module ClassifierFacts.
Import Py Viewer Spec PyStrFacts PyFacts.

(** What the [try] block does, by the shape of the dataset. *)
Lemma is_mlo_view_try_absent (dcm : dataset) :
  ViewCodeSequence dcm = Raise AttributeError → is_mlo_view_try dcm = Ok None.
Proof. unfold is_mlo_view_try. now intros ->. Qed.

Lemma is_mlo_view_try_empty (dcm : dataset) :
  ViewCodeSequence dcm = Ok [] → is_mlo_view_try dcm = Ok None.
Proof. unfold is_mlo_view_try. now intros ->. Qed.

Lemma is_mlo_view_try_unreadable (dcm : dataset) (e : exn) :
  ViewCodeSequence dcm = Raise e → e ≠ AttributeError → is_mlo_view_try dcm = Raise e.
Proof. unfold is_mlo_view_try. intros -> He. now destruct e. Qed.

Lemma is_mlo_view_try_first (dcm : dataset) (item : code_item) (rest : list code_item) :
  ViewCodeSequence dcm = Ok (item :: rest) →
  is_mlo_view_try dcm =
  match CodeMeaning item with
  | Ok (Text text) =>
      Ok (Some (PyStr.contains "medio-lateral oblique" (PyStr.lower text)
                || PyStr.contains "mlo" (PyStr.lower text)))
  | Ok _ => Raise AttributeError
  | Raise AttributeError => Ok None
  | Raise e => Raise e
  end.
Proof.
  unfold is_mlo_view_try. intros ->. cbn [hasattr]. run.
  destruct (CodeMeaning item) as [[text| |]|[]]; reflexivity.
Qed.

(** The classifier never hands an exception to its caller. *)
Lemma is_mlo_view_outcome (dcm : dataset) :
  (∃ b, is_mlo_view dcm = (b, []))
  ∨ (∃ e, is_mlo_view_try dcm = Raise e
          ∧ is_mlo_view dcm = (false, [st_warning "Error checking MLO view: " e])).
Proof.
  unfold is_mlo_view. destruct (is_mlo_view_try dcm) as [[b|]|e]; eauto.
Qed.

(** C4.  The classifier returns true exactly when the dataset has a view-code
    sequence whose first item has a code meaning that is a text in which
    "medio-lateral oblique" or "mlo" occurs, letter case ignored.  So it
    returns true for "Medio-Lateral Oblique", false for "Cranio-Caudal", and
    false, with no warning, when the sequence is absent. *)
Theorem is_mlo_view_true_iff :
  (∀ dcm, fst (is_mlo_view dcm) = true
          ↔ ∃ item rest text,
              ViewCodeSequence dcm = Ok (item :: rest)
              ∧ CodeMeaning item = Ok (Text text)
              ∧ (occurs_ignoring_case "medio-lateral oblique" text
                 ∨ occurs_ignoring_case "mlo" text))
  ∧ (∀ rest pixels,
       is_mlo_view (Dataset (Ok (CodeItem (Ok (Text "Medio-Lateral Oblique")) :: rest)) pixels)
       = (true, []))
  ∧ (∀ rest pixels,
       is_mlo_view (Dataset (Ok (CodeItem (Ok (Text "Cranio-Caudal")) :: rest)) pixels)
       = (false, []))
  ∧ (∀ pixels, is_mlo_view (Dataset (Raise AttributeError) pixels) = (false, [])).
Proof.
  split; [|repeat split].
  intros dcm. unfold is_mlo_view. split.
  - destruct (ViewCodeSequence dcm) as [[|item rest]|e] eqn:Hseq.
    + now rewrite (is_mlo_view_try_empty dcm Hseq).
    + rewrite (is_mlo_view_try_first dcm item rest Hseq).
      destruct (CodeMeaning item) as [[text| |]|[]] eqn:Hmeaning; try discriminate.
      cbn [fst]. intros H. exists item, rest, text. split; [reflexivity|].
      split; [exact Hmeaning|]. unfold occurs_ignoring_case.
      apply orb_true_iff in H as [H|H]; [left | right]; now apply contains_lower.
    + destruct e;
        try (rewrite (is_mlo_view_try_unreadable dcm _ Hseq) by discriminate; discriminate).
      now rewrite (is_mlo_view_try_absent dcm Hseq).
  - intros (item & rest & text & Hseq & Hmeaning & H).
    rewrite (is_mlo_view_try_first dcm item rest Hseq), Hmeaning. cbn [fst].
    apply orb_true_iff. unfold occurs_ignoring_case in H.
    destruct H as [H|H]; [left | right]; now apply contains_lower.
Qed.

(** C9.  An attribute-access error inside the classifier (the sequence or the
    code meaning is there and cannot be read, or the code meaning is not a
    text and has no [lower]) is caught: one warning that carries the
    exception is shown and the classifier returns false. *)
Theorem is_mlo_view_recovers_from_access_error (dcm : dataset) (e : exn) :
  (ViewCodeSequence dcm = Raise e ∧ e ≠ AttributeError)
  ∨ (∃ item rest, ViewCodeSequence dcm = Ok (item :: rest)
                  ∧ ((CodeMeaning item = Raise e ∧ e ≠ AttributeError)
                     ∨ (∃ value, CodeMeaning item = Ok value
                                 ∧ lower_method value = Raise e))) →
  is_mlo_view dcm = (false, [st_warning "Error checking MLO view: " e]).
Proof.
  unfold is_mlo_view.
  intros [[Hseq He] | (item & rest & Hseq & [[Hmeaning He] | (value & Hmeaning & Hlower)])].
  - now rewrite (is_mlo_view_try_unreadable dcm e Hseq He).
  - rewrite (is_mlo_view_try_first dcm item rest Hseq), Hmeaning. now destruct e.
  - rewrite (is_mlo_view_try_first dcm item rest Hseq), Hmeaning.
    destruct value; cbn in Hlower; try discriminate; now injection Hlower as <-.
Qed.

Lemma is_mlo_view_recovers_from_access_error_witness :
  is_mlo_view (Dataset (Ok [CodeItem (Ok (MultiValue ["MLO"; "left"]))]) (Raise AttributeError))
  = (false, [st_warning "Error checking MLO view: " AttributeError]).
Proof.
  apply (is_mlo_view_recovers_from_access_error
           (Dataset (Ok [CodeItem (Ok (MultiValue ["MLO"; "left"]))]) (Raise AttributeError))
           AttributeError).
  right. exists (CodeItem (Ok (MultiValue ["MLO"; "left"]))), [].
  split; [reflexivity|]. right. exists (MultiValue ["MLO"; "left"]).
  split; reflexivity.
Defined.

End ClassifierFacts.

(** ** The Image Renderer *)

Module RendererFacts.
Import Py Viewer Spec PyStrFacts PyFacts LoaderFacts.

Lemma shown_enabled (m : gmap string bool) (a : annotation) :
  shown m a = true ↔ enabled m a.
Proof.
  unfold shown, enabled. destruct (m !! label a) as [[]|]; cbn; split; congruence.
Qed.

Lemma draw_annotations_closable (m : gmap string bool) (annotations : list annotation)
    (calls : list plot_call) (legend_elements : list patch) :
  Forall (fun a => length (x_coords a) = length (y_coords a)) annotations →
  forallb (closable m) annotations = true →
  draw_annotations m annotations calls legend_elements
  = Ok (calls ++ flat_map (polygon_calls m) annotations,
        legend_elements ++ map legend_entry annotations).
Proof.
  intros Hlen. revert calls legend_elements.
  induction Hlen as [|a annotations Ha _ IH]; intros calls legend_elements Hclosable.
  - cbn. now rewrite !app_nil_r.
  - cbn [forallb] in Hclosable. apply andb_true_iff in Hclosable as [Hfirst Hrest].
    cbn [draw_annotations flat_map map]. unfold polygon_calls at 1.
    unfold closable in Hfirst.
    destruct (decide (enabled m a)) as [Hen|Hen].
    + rewrite (proj2 (shown_enabled m a) Hen).
      rewrite bool_decide_eq_true_2 in Hfirst by exact Hen. cbn in Hfirst.
      destruct (x_coords a) as [|x xs] eqn:Hx; [discriminate|].
      destruct (y_coords a) as [|y ys] eqn:Hy; [discriminate|].
      cbn [append_first closed]. run. rewrite (IH _ _ Hrest).
      now rewrite <- !app_assoc.
    + destruct (shown m a) eqn:Hshown; [now apply shown_enabled in Hshown|].
      run. rewrite (IH _ _ Hrest). now rewrite <- !app_assoc.
Qed.







(** The figure returned when the image decodes, both optional arguments are
    true in an [if] and every enabled polygon has a point. *)
Lemma display_rendered (sv : services) (dicom_path json_path : string)
    (m : gmap string bool) (dcm : dataset) (image : ndarray) :
  dcmread sv dicom_path = Ok dcm →
  pixel_array dcm = Ok image →
  truthy_path (Some json_path) = true →
  truthy_map (Some m) = true →
  forallb (closable m) (fst (load_annotations (open_json sv) json_path)) = true →
  display_dicom_with_annotation sv dicom_path (Some json_path) (Some m)
  = (snd (load_annotations (open_json sv) json_path),
     Ok (rendered image m (fst (load_annotations (open_json sv) json_path)))).
Proof.
  intros Hdcm Himage Hpath Hmap Hclosable. unfold display_dicom_with_annotation.
  rewrite Hdcm. run. rewrite Himage, Hpath, Hmap. cbn [andb].
  pose proof (load_annotations_lengths (open_json sv) json_path) as Hlen.
  destruct (load_annotations (open_json sv) json_path) as [annotations warnings].
  cbn [fst snd] in *.
  rewrite (draw_annotations_closable m annotations _ [] Hlen Hclosable). run.
  f_equal. f_equal. unfold rendered.
  destruct annotations as [|a l]; cbn [map app]; rewrite <- ?app_assoc; cbn [app];
    rewrite ?app_nil_r; reflexivity.
Qed.




(** The two truth tests of the renderer's [if]. *)
Lemma truthy_path_nonempty (json_path : string) :
  truthy_path (Some json_path) = true ↔ json_path ≠ "".
Proof.
  cbn [truthy_path]. rewrite negb_true_iff. apply String.eqb_neq.
Qed.

Lemma truthy_map_nonempty (m : gmap string bool) :
  truthy_map (Some m) = true ↔ m ≠ ∅.
Proof.
  cbn [truthy_map]. rewrite negb_true_iff, Nat.eqb_neq.
  apply map_size_non_empty_iff.
Qed.

(** An enabled polygon without a point stops the renderer: [x_coords[0]]
    raises and no figure is returned. *)
Example empty_polygon_raises :
  display_dicom_with_annotation
    (Samples.sample_services (PList [PDict [("cgPoints", PList []); ("label", PStr "Mass")]]))
    "1-1.dcm" (Some "a.json") (Some {[ "Mass" := true ]})
  = ([], Raise IndexError).
Proof. vm_compute. reflexivity. Qed.








End RendererFacts.

(** ** The Session Orchestrator: the Patient Image Set *)

Module SessionFacts.
Import Py Viewer Spec PyFacts.

Section ImageSet.
Context (sv : services) (selected_patient : string) (patient_json_files : list string).

Local Abbreviation qualifies := (qualifies sv selected_patient patient_json_files).
Local Abbreviation first_match := (first_match selected_patient patient_json_files).
Local Abbreviation paired := (paired sv selected_patient patient_json_files).

Lemma paired_nil : paired ([], [], []).
Proof. repeat split; constructor. Qed.

Lemma dcmread_checked (dcm_path : string) (dcm : dataset) :
  (d ← dcmread sv dcm_path; _ ← hasattr (ViewCodeSequence d); Ok d) = Ok dcm →
  dcmread sv dcm_path = Ok dcm.
Proof.
  destruct (dcmread sv dcm_path) as [d|]; run; [|discriminate].
  destruct (hasattr (ViewCodeSequence d)); run; [|discriminate]. now intros [= ->].
Qed.

Lemma process_dicom_file_paired acc root file :
  paired acc → paired (process_dicom_file sv selected_patient patient_json_files acc root file).
Proof.
  destruct acc as [[mlo_images mlo_annotations] events]. intros (Hq & Hlen & Hfirst).
  cbn [fst snd] in *. unfold process_dicom_file.
  destruct (PyStr.endswith file ".dcm"); [|now repeat split].
  destruct (_ ≫= _) as [dcm|e] eqn:Hread; [|now repeat split].
  apply dcmread_checked in Hread.
  destruct (is_mlo_view dcm) as [is_mlo warnings] eqn:Hview.
  destruct is_mlo; [|now repeat split].
  destruct (filter _ patient_json_files) as [|first others] eqn:Hmatch; [now repeat split|].
  repeat split; cbn [fst snd].
  - apply Forall_app. split; [exact Hq|]. constructor; [|constructor].
    exists dcm. split; [exact Hread|]. split; [now rewrite Hview|].
    exists first. assert (first ∈ first :: others) as Hin by left.
    rewrite <- Hmatch in Hin. apply list_elem_of_filter in Hin as [Hid Hin]. now split.
  - rewrite !length_app. cbn. lia.
  - apply Forall_app. split; [exact Hfirst|]. constructor; [|constructor].
    unfold first_match. now rewrite Hmatch.
Qed.

Lemma collect_mlo_paired walk :
  paired (collect_mlo sv selected_patient patient_json_files walk).
Proof.
  unfold collect_mlo. generalize paired_nil.
  generalize (@nil string, @nil string, @nil ui_event).
  induction walk as [|[[root dirs] files] walk IH]; intros acc Hacc; [exact Hacc|].
  cbn [foldl]. apply IH. clear IH. revert acc Hacc.
  induction files as [|file files IH]; intros acc Hacc; [exact Hacc|].
  cbn [foldl]. apply IH. now apply process_dicom_file_paired.
Qed.

End ImageSet.

(** The step either leaves the image sets as they are or stores, for the
    selected patient, the two lists gathered from that patient's files. *)
Lemma process_patient_images sv patient_json_dict selected_patient st disk st' disk' events :
  process_patient sv patient_json_dict selected_patient st disk = (st', disk', events) →
  patient_images st' = patient_images st
  ∨ ∃ patient_json_files walk,
      patient_json_dict !! selected_patient = Some patient_json_files
      ∧ patient_images st'
        = <[selected_patient :=
              fst (collect_mlo sv selected_patient patient_json_files walk)]>
            (patient_images st).
Proof.
  unfold process_patient. case_bool_decide; [intros [= <- _ _]; now left|].
  destruct (filter _ (series sv)) as [|row rows]; [intros [= <- _ _]; now left|].
  destruct (if _ || _ then _ else _) as [t|e]; [|intros [= <- _ _]; now left].
  destruct (patient_json_dict !! selected_patient) as [patient_json_files|] eqn:Hfiles;
    [|intros [= <- _ _]; now left].
  destruct (collect_mlo _ _ _ _) as [[mlo_images mlo_annotations] evs] eqn:Hcollect.
  intros [= <- _ _]. right. eexists patient_json_files, _. split; [reflexivity|].
  cbn [patient_images]. now rewrite Hcollect.
Qed.

(** Every stored image set was gathered from the annotation files of its
    patient. *)
Lemma reachable_paired sv patient_json_dict st disk pid mlo_images mlo_annotations :
  reachable sv patient_json_dict st disk →
  patient_images st !! pid = Some (mlo_images, mlo_annotations) →
  ∃ patient_json_files,
    patient_json_dict !! pid = Some patient_json_files
    ∧ paired sv pid patient_json_files (mlo_images, mlo_annotations, []).
Proof.
  intros Hreach. revert pid mlo_images mlo_annotations.
  induction Hreach as [disk | st disk selected_patient st' disk' events _ IH Hstep];
    intros pid mlo_images mlo_annotations Hlookup.
  - cbn in Hlookup. now rewrite lookup_empty in Hlookup.
  - apply process_patient_images in Hstep as [Hsame | (files & walk & Hfiles & Hstored)].
    + rewrite Hsame in Hlookup. now apply IH.
    + rewrite Hstored in Hlookup.
      destruct (decide (selected_patient = pid)) as [->|Hne].
      * rewrite lookup_insert_eq in Hlookup. injection Hlookup as Hlookup.
        exists files. split; [exact Hfiles|].
        pose proof (collect_mlo_paired sv pid files walk) as Hpaired.
        unfold paired in *. now rewrite Hlookup in Hpaired.
      * rewrite lookup_insert_ne in Hlookup by exact Hne. now apply IH.
Qed.

Lemma sample_session_reachable :
  reachable (Samples.sample_services Samples.two_labels) Samples.sample_index
            Samples.sample_session
            (snd (fst (process_patient (Samples.sample_services Samples.two_labels)
                                       Samples.sample_index "D1-0001" initial_session ∅))).
Proof.
  apply reachable_step with initial_session ∅ "D1-0001"
    (snd (process_patient (Samples.sample_services Samples.two_labels)
                          Samples.sample_index "D1-0001" initial_session ∅)).
  - apply reachable_init.
  - unfold Samples.sample_session. now destruct (process_patient _ _ _ _ _) as [[? ?] ?].
Defined.

Example sample_session_images :
  patient_images Samples.sample_session !! "D1-0001"
  = Some (["images/D1-0001/1-1.dcm"], ["extracted/D1-0001_a.json"]).
Proof. vm_compute. reflexivity. Qed.

(** C5.  In every session the per-patient step can reach, a DICOM path stored
    in the image set of a patient is the path of a file that decodes to a
    dataset the View Classifier answers true on, and the patient has at least
    one annotation file whose basename's first seven characters are the
    patient id. *)
Theorem image_set_only_target_view_with_annotation (sv : services)
    (patient_json_dict : gmap string (list string)) (st : session_state)
    (disk : gmap string tree) (pid : string) (mlo_images mlo_annotations : list string)
    (dcm_path : string) :
  reachable sv patient_json_dict st disk →
  patient_images st !! pid = Some (mlo_images, mlo_annotations) →
  dcm_path ∈ mlo_images →
  (∃ dcm, dcmread sv dcm_path = Ok dcm ∧ fst (is_mlo_view dcm) = true)
  ∧ ∃ patient_json_files json_file,
      patient_json_dict !! pid = Some patient_json_files
      ∧ json_file ∈ patient_json_files
      ∧ PyStr.slice_to 7 (PyStr.basename json_file) = pid.
Proof.
  intros Hreach Hlookup Hin.
  destruct (reachable_paired sv patient_json_dict st disk pid _ _ Hreach Hlookup)
    as (files & Hfiles & Hq & _).
  cbn [fst] in Hq. rewrite Forall_forall in Hq.
  destruct (Hq dcm_path Hin) as (dcm & Hread & Hview & json_file & Hjson & Hid).
  split; [now exists dcm|]. now exists files, json_file.
Qed.

Lemma image_set_only_target_view_with_annotation_witness :
  (∃ dcm, dcmread (Samples.sample_services Samples.two_labels) "images/D1-0001/1-1.dcm" = Ok dcm
          ∧ fst (is_mlo_view dcm) = true)
  ∧ ∃ patient_json_files json_file,
      Samples.sample_index !! "D1-0001" = Some patient_json_files
      ∧ json_file ∈ patient_json_files
      ∧ PyStr.slice_to 7 (PyStr.basename json_file) = "D1-0001".
Proof.
  apply (image_set_only_target_view_with_annotation
           (Samples.sample_services Samples.two_labels) Samples.sample_index
           Samples.sample_session _ "D1-0001"
           ["images/D1-0001/1-1.dcm"] ["extracted/D1-0001_a.json"]
           "images/D1-0001/1-1.dcm" sample_session_reachable).
  - vm_compute. reflexivity.
  - left.
Defined.



End SessionFacts.

(** ** More on the Annotation Loader *)

Module LoaderBehaviour.
Import Py Viewer Spec Readings PyStrFacts PyFacts LoaderFacts.

#[local] Arguments String.append !_ _ / : simpl nomatch.

(** [strip] leaves a stripped text as it is. *)
Lemma lstrip_fixed (s : string) :
  (∀ c, PyStr.first_char s = Some c → PyStr.isspace c = false) → PyStr.lstrip s = s.
Proof.
  destruct s as [|c s]; [reflexivity|]. intros H. cbn. now rewrite (H c eq_refl).
Qed.

Lemma rstrip_fixed (s : string) :
  (∀ c, PyStr.last_char s = Some c → PyStr.isspace c = false) → PyStr.rstrip s = s.
Proof.
  induction s as [|c s IH]; [reflexivity|]. intros H. cbn [PyStr.rstrip].
  destruct s as [|d s].
  - cbn. now rewrite (H c eq_refl).
  - rewrite IH by (intros e He; now apply H). reflexivity.
Qed.

Lemma strip_idempotent (s : string) : PyStr.strip (PyStr.strip s) = PyStr.strip s.
Proof.
  destruct (strip_spec s) as (_ & Hfirst & Hlast).
  unfold PyStr.strip at 1. rewrite (lstrip_fixed _ Hfirst). now apply rstrip_fixed.
Qed.

(** The label of a record the loop body builds is a stripped text. *)
Lemma load_annotation_entry_label (entry : pyval) (a : annotation) :
  load_annotation_entry entry = Ok (Some a) → ∃ s, label a = PyStr.strip s.
Proof.
  unfold load_annotation_entry.
  destruct (contains "cgPoints" entry) as [[]|]; run; try discriminate.
  destruct (getitem entry "cgPoints") as [points|]; run; [|discriminate].
  destruct (iter points) as [pts|]; run; [|discriminate].
  destruct (mapM (fun point => getitem point "x") pts) as [xs|]; run; [|discriminate].
  destruct (mapM (fun point => getitem point "y") pts) as [ys|]; run; [|discriminate].
  destruct (get entry "label" _) as [lab|]; run; [|discriminate].
  destruct lab as [| | | |s| |]; cbn [strip]; run; try discriminate.
  destruct (get entry "color" _); run; [|discriminate].
  intros [= <-]. now exists s.
Qed.

Lemma load_annotations_loop_labels (entries : list pyval) (acc data : list annotation) :
  Forall (fun a => PyStr.strip (label a) = label a) acc →
  load_annotations_loop entries acc = Ok data →
  Forall (fun a => PyStr.strip (label a) = label a) data.
Proof.
  revert acc. induction entries as [|entry entries IH]; intros acc Hacc;
    cbn [load_annotations_loop].
  - now intros [= <-].
  - destruct (load_annotation_entry entry) as [r|] eqn:Hentry; run; [|discriminate].
    apply IH. destruct r as [a|]; [|exact Hacc].
    apply Forall_app. split; [exact Hacc|]. constructor; [|constructor].
    destruct (load_annotation_entry_label entry a Hentry) as [s ->].
    apply strip_idempotent.
Qed.

(** X1.  Whatever the file holds, every record the loader returns has as many
    abscissas as ordinates and a label that [strip] leaves unchanged: no
    whitespace at either end. *)
Theorem loaded_records_are_regular (open_json : string → result pyval) (json_path : string) :
  Forall (fun a => length (x_coords a) = length (y_coords a)
                   ∧ PyStr.strip (label a) = label a
                   ∧ (∀ c, PyStr.first_char (label a) = Some c → PyStr.isspace c = false)
                   ∧ (∀ c, PyStr.last_char (label a) = Some c → PyStr.isspace c = false))
         (fst (load_annotations open_json json_path)).
Proof.
  pose proof (load_annotations_lengths open_json json_path) as Hlen.
  assert (Forall (fun a => PyStr.strip (label a) = label a)
                 (fst (load_annotations open_json json_path))) as Hlab.
  { unfold load_annotations, load_annotations_try.
    destruct (open_json json_path) as [v|]; run; cbn [fst]; [|constructor].
    destruct (iter v) as [entries|]; run; cbn [fst]; [|constructor].
    destruct (load_annotations_loop entries []) as [data|] eqn:Hloop; cbn [fst]; [|constructor].
    now apply (load_annotations_loop_labels entries [] data). }
  rewrite Forall_forall in Hlen, Hlab. apply Forall_forall. intros a Ha.
  split; [now apply Hlen|]. split; [now apply Hlab|].
  destruct (strip_spec (label a)) as (_ & Hfirst & Hlast).
  rewrite (Hlab a Ha) in Hfirst, Hlast. now split.
Qed.

(** The loop stops at the first entry that raises. *)
Lemma load_annotations_loop_raises (before after : list pyval) (bad : pyval)
    (acc : list annotation) (e : exn) :
  forallb (fun entry => succeeds (load_annotation_entry entry)) before = true →
  load_annotation_entry bad = Raise e →
  load_annotations_loop (before ++ bad :: after) acc = Raise e.
Proof.
  revert acc. induction before as [|entry before IH]; intros acc Hbefore Hbad.
  - cbn [app load_annotations_loop]. now rewrite Hbad.
  - cbn [forallb] in Hbefore. apply andb_true_iff in Hbefore as [Hentry Hbefore].
    cbn [app load_annotations_loop].
    destruct (load_annotation_entry entry) as [r|]; [|discriminate]. run.
    now apply IH.
Qed.

(** X2.  All or nothing.  When the entry at some place of the file raises and the
    entries before it do not, the loader returns no record at all, not even
    those of the entries before, and shows one warning that carries the
    exception of that entry; the entries after it are never looked at. *)
Theorem loader_discards_all_at_first_bad_entry (open_json : string → result pyval)
    (json_path : string) (v : pyval) (before after : list pyval) (bad : pyval) (e : exn) :
  open_json json_path = Ok v →
  iter v = Ok (before ++ bad :: after) →
  forallb (fun entry => succeeds (load_annotation_entry entry)) before = true →
  load_annotation_entry bad = Raise e →
  load_annotations open_json json_path
  = ([], [st_warning "Error reading annotation file: " e]).
Proof.
  intros Hfile Hiter Hbefore Hbad. unfold load_annotations, load_annotations_try.
  rewrite Hfile. run. rewrite Hiter. run.
  now rewrite (load_annotations_loop_raises before after bad [] e Hbefore Hbad).
Qed.

Lemma loader_discards_all_at_first_bad_entry_witness :
  load_annotations
    (fun _ => Ok (PList ([PDict [("cgPoints", PList [Samples.point 1 2]); ("label", PStr "Mass")]]
                         ++ PDict [("cgPoints", PList [Samples.point 3 4]); ("label", PNone)]
                         :: [PInt 7])))
    "a.json"
  = ([], [st_warning "Error reading annotation file: " AttributeError]).
Proof.
  apply (loader_discards_all_at_first_bad_entry _ "a.json"
           (PList ([PDict [("cgPoints", PList [Samples.point 1 2]); ("label", PStr "Mass")]]
                   ++ PDict [("cgPoints", PList [Samples.point 3 4]); ("label", PNone)]
                   :: [PInt 7]))
           [PDict [("cgPoints", PList [Samples.point 1 2]); ("label", PStr "Mass")]]
           [PInt 7]
           (PDict [("cgPoints", PList [Samples.point 3 4]); ("label", PNone)])
           AttributeError eq_refl eq_refl eq_refl eq_refl).
Defined.

(** A one-character text does not contain ['cgPoints']. *)
Lemma char_names_no_points (c : ascii) : PyStr.contains "cgPoints" (String c "") = false.
Proof.
  cbn [PyStr.contains String.prefix]. destruct (ascii_dec "c" c); reflexivity.
Qed.

Lemma load_annotations_loop_chars (l : list ascii) (acc : list annotation) :
  load_annotations_loop (map (fun c => PStr (String c "")) l) acc = Ok acc.
Proof.
  induction l as [|c l IH]; [reflexivity|].
  cbn [map load_annotations_loop]. unfold load_annotation_entry.
  cbn [contains]. rewrite char_names_no_points. run. exact IH.
Qed.

Lemma load_annotations_loop_keys (kvs : list (string * pyval)) (acc : list annotation) :
  load_annotations_loop (map (fun kv => PStr (fst kv)) kvs) acc
  = if existsb names_points kvs then Raise TypeError else Ok acc.
Proof.
  induction kvs as [|[k v] kvs IH]; [reflexivity|].
  cbn [map load_annotations_loop existsb fst]. unfold load_annotation_entry, names_points at 1.
  cbn [contains fst]. destruct (PyStr.contains "cgPoints" k); run.
  - reflexivity.
  - cbn [orb]. exact IH.
Qed.

(** X3.  Only a top-level array yields records.  A file whose top level is not an
    array gives the empty list: with a [TypeError] warning for null, a boolean
    or a number; silently for a string; and for an object silently too,
    unless one of its keys contains ['cgPoints'], which the loop then takes
    for an entry and fails on. *)
Theorem loader_needs_top_level_array (open_json : string → result pyval)
    (json_path : string) (v : pyval) :
  open_json json_path = Ok v →
  match v with
  | PList _ => True
  | PDict kvs =>
      load_annotations open_json json_path
      = ([], if existsb names_points kvs
             then [st_warning "Error reading annotation file: " TypeError] else [])
  | PStr _ => load_annotations open_json json_path = ([], [])
  | _ =>
      load_annotations open_json json_path
      = ([], [st_warning "Error reading annotation file: " TypeError])
  end.
Proof.
  intros Hfile. unfold load_annotations, load_annotations_try.
  destruct v as [| | | |s|l|kvs]; rewrite ?Hfile; run; cbn [iter]; run;
    try reflexivity; try exact I.
  - now rewrite load_annotations_loop_chars.
  - rewrite load_annotations_loop_keys. now destruct (existsb names_points kvs).
Qed.

Lemma loader_needs_top_level_array_witness :
  load_annotations
    (fun _ => Ok (PDict [("annotations", PList [PDict [("cgPoints", PList [])]])]))
    "a.json"
  = ([], []).
Proof.
  exact (loader_needs_top_level_array
           (fun _ => Ok (PDict [("annotations", PList [PDict [("cgPoints", PList [])]])]))
           "a.json" _ eq_refl).
Defined.

End LoaderBehaviour.

(** ** More on the Image Renderer *)

Module RendererBehaviour.
Import Py Viewer Spec Readings PyStrFacts PyFacts LoaderFacts RendererFacts.

(** X4.  Without a path or without a map, [None] or empty, the renderer returns
    the figure of the image alone, shows no warning and does not open the
    annotation file: the result is the same whatever reading a file would
    give. *)
Theorem renderer_without_annotations (sv : services) (other_json : string → result pyval)
    (dicom_path : string) (annotation_path : option string)
    (show_annotations : option (gmap string bool)) (dcm : dataset) (image : ndarray) :
  dcmread sv dicom_path = Ok dcm →
  pixel_array dcm = Ok image →
  truthy_path annotation_path && truthy_map show_annotations = false →
  display_dicom_with_annotation sv dicom_path annotation_path show_annotations
  = ([], Ok (image_only image))
  ∧ display_dicom_with_annotation
      (Services other_json (dcmread sv) (series sv) (downloadSeries sv))
      dicom_path annotation_path show_annotations
    = ([], Ok (image_only image)).
Proof.
  intros Hdcm Himage Hfalse. unfold display_dicom_with_annotation. cbn [dcmread open_json].
  rewrite Hdcm. run. rewrite Himage.
  destruct annotation_path as [path|], show_annotations as [m|];
    rewrite ?Hfalse; split; reflexivity.
Qed.

Lemma renderer_without_annotations_witness :
  display_dicom_with_annotation (Samples.sample_services Samples.two_masses)
    "1-1.dcm" (Some "a.json") None
  = ([], Ok (image_only (NdArray 20 10))).
Proof.
  apply (renderer_without_annotations (Samples.sample_services Samples.two_masses)
           (fun _ => Raise (OSError "unused")) "1-1.dcm" (Some "a.json") None
           Samples.mlo_dataset (NdArray 20 10) eq_refl eq_refl eq_refl).
Defined.

(** X5.  A DICOM file that does not decode, or whose pixel data do not, makes the
    renderer raise that very exception: nothing is drawn, no warning is shown
    and the annotation file is not opened. *)
Theorem renderer_propagates_decode_error (sv : services) (other_json : string → result pyval)
    (dicom_path : string) (annotation_path : option string)
    (show_annotations : option (gmap string bool)) (e : exn) :
  dcmread sv dicom_path = Raise e
  ∨ (∃ dcm, dcmread sv dicom_path = Ok dcm ∧ pixel_array dcm = Raise e) →
  display_dicom_with_annotation sv dicom_path annotation_path show_annotations
  = ([], Raise e)
  ∧ display_dicom_with_annotation
      (Services other_json (dcmread sv) (series sv) (downloadSeries sv))
      dicom_path annotation_path show_annotations
    = ([], Raise e).
Proof.
  unfold display_dicom_with_annotation. cbn [dcmread].
  intros [Hdcm | (dcm & Hdcm & Hpixels)]; rewrite Hdcm; run; rewrite ?Hpixels;
    split; reflexivity.
Qed.

Lemma renderer_propagates_decode_error_witness :
  display_dicom_with_annotation
    (Services (fun _ => Ok Samples.two_masses)
              (fun _ => Ok (Dataset (Raise AttributeError) (Raise (LibraryError "no pixel data"))))
              [] (fun _ _ t => Ok t))
    "1-1.dcm" (Some "a.json") (Some {[ "Mass" := true ]})
  = ([], Raise (LibraryError "no pixel data")).
Proof.
  apply (renderer_propagates_decode_error
           (Services (fun _ => Ok Samples.two_masses)
              (fun _ => Ok (Dataset (Raise AttributeError) (Raise (LibraryError "no pixel data"))))
              [] (fun _ _ t => Ok t))
           (fun _ => Ok PNone) "1-1.dcm" (Some "a.json") (Some {[ "Mass" := true ]})
           (LibraryError "no pixel data")).
  right. eexists. split; reflexivity.
Defined.

(** X6.  An annotation file that cannot be read does not stop the renderer: the
    figure of the image alone is returned, together with the loader's
    warning. *)
Theorem renderer_survives_unreadable_annotations (sv : services)
    (dicom_path json_path : string) (m : gmap string bool) (dcm : dataset)
    (image : ndarray) (e : exn) :
  dcmread sv dicom_path = Ok dcm →
  pixel_array dcm = Ok image →
  truthy_path (Some json_path) = true →
  truthy_map (Some m) = true →
  load_annotations_try (open_json sv) json_path = Raise e →
  display_dicom_with_annotation sv dicom_path (Some json_path) (Some m)
  = ([st_warning "Error reading annotation file: " e], Ok (image_only image)).
Proof.
  intros Hdcm Himage Hpath Hmap Hload. unfold display_dicom_with_annotation.
  rewrite Hdcm. run. rewrite Himage, Hpath, Hmap. cbn [andb].
  unfold load_annotations. rewrite Hload. reflexivity.
Qed.

Lemma renderer_survives_unreadable_annotations_witness :
  display_dicom_with_annotation (Samples.sample_services (PInt 3))
    "1-1.dcm" (Some "a.json") (Some {[ "Mass" := true ]})
  = ([st_warning "Error reading annotation file: " TypeError],
     Ok (image_only (NdArray 20 10))).
Proof.
  assert (truthy_map (Some ({[ "Mass" := true ]} : gmap string bool)) = true) as Hmap
    by (vm_compute; reflexivity).
  apply (renderer_survives_unreadable_annotations (Samples.sample_services (PInt 3))
           "1-1.dcm" "a.json" {[ "Mass" := true ]} Samples.mlo_dataset (NdArray 20 10)
           TypeError eq_refl eq_refl eq_refl Hmap eq_refl).
Defined.

(** The drawing loop fails as soon as an enabled polygon has no point. *)
Lemma draw_annotations_not_closable (m : gmap string bool) (annotations : list annotation)
    (calls : list plot_call) (legend_elements : list patch) :
  Forall (fun a => length (x_coords a) = length (y_coords a)) annotations →
  forallb (closable m) annotations = false →
  draw_annotations m annotations calls legend_elements = Raise IndexError.
Proof.
  intros Hlen. revert calls legend_elements.
  induction Hlen as [|a annotations Ha _ IH]; intros calls legend_elements Hnot;
    [discriminate|].
  cbn [forallb] in Hnot. cbn [draw_annotations]. unfold closable in Hnot.
  destruct (decide (enabled m a)) as [Hen|Hen].
  - rewrite (proj2 (shown_enabled m a) Hen).
    rewrite bool_decide_eq_true_2 in Hnot by exact Hen. cbn [negb orb] in Hnot.
    destruct (x_coords a) as [|x xs]; [reflexivity|].
    destruct (y_coords a) as [|y ys]; [discriminate|].
    cbn [append_first andb] in *. run. now apply IH.
  - rewrite bool_decide_eq_false_2 in Hnot by exact Hen. cbn [negb orb andb] in Hnot.
    destruct (shown m a) eqn:Hshown; [now apply shown_enabled in Hshown|].
    run. now apply IH.
Qed.

Lemma display_with_annotations (sv : services) (dicom_path json_path : string)
    (m : gmap string bool) (dcm : dataset) (image : ndarray) :
  dcmread sv dicom_path = Ok dcm →
  pixel_array dcm = Ok image →
  truthy_path (Some json_path) = true →
  truthy_map (Some m) = true →
  display_dicom_with_annotation sv dicom_path (Some json_path) (Some m)
  = (snd (load_annotations (open_json sv) json_path),
     if forallb (closable m) (fst (load_annotations (open_json sv) json_path))
     then Ok (rendered image m (fst (load_annotations (open_json sv) json_path)))
     else Raise IndexError).
Proof.
  intros Hdcm Himage Hpath Hmap.
  destruct (forallb _ _) eqn:Hclosable; [now apply display_rendered with dcm|].
  unfold display_dicom_with_annotation.
  rewrite Hdcm. run. rewrite Himage, Hpath, Hmap. cbn [andb].
  pose proof (load_annotations_lengths (open_json sv) json_path) as Hlen.
  destruct (load_annotations (open_json sv) json_path) as [annotations warnings].
  cbn [fst snd] in *.
  now rewrite (draw_annotations_not_closable m annotations _ [] Hlen Hclosable).
Qed.







(** The overlay calls of a rendered figure. *)
Lemma polygon_calls_overlay (m : gmap string bool) (annotations : list annotation) :
  forallb is_overlay_call (flat_map (polygon_calls m) annotations) = true.
Proof.
  induction annotations as [|a l IH]; [reflexivity|].
  cbn [flat_map]. rewrite forallb_app, IH, andb_true_r. unfold polygon_calls.
  destruct (decide (enabled m a)); reflexivity.
Qed.

(** X9.  The frame of every figure.  Whatever the arguments, a figure the renderer
    returns starts with a 10 by 10 canvas, the image in gray without
    smoothing, the horizontal limits 0 to the width and the vertical limits
    from the height down to 0; it ends with the axes switched off and the
    padding removed; and between the two it holds nothing but outlines, fills
    and a legend. *)
Theorem rendered_figure_frame (sv : services) (dicom_path : string)
    (annotation_path : option string) (show_annotations : option (gmap string bool))
    (warnings : list ui_event) (fig : figure) :
  display_dicom_with_annotation sv dicom_path annotation_path show_annotations
  = (warnings, Ok fig) →
  ∃ dcm image overlay,
    dcmread sv dicom_path = Ok dcm
    ∧ pixel_array dcm = Ok image
    ∧ fig = [subplots 10 10; imshow image "gray" "nearest";
             set_xlim 0 (shape1 image); set_ylim (shape0 image) 0]
            ++ overlay ++ [axis "off"; subplots_adjust]
    ∧ forallb is_overlay_call overlay = true.
Proof.
  intros Hfig.
  destruct (dcmread sv dicom_path) as [dcm|e] eqn:Hdcm;
    [|unfold display_dicom_with_annotation in Hfig; rewrite Hdcm in Hfig; discriminate].
  destruct (pixel_array dcm) as [image|e] eqn:Himage;
    [|unfold display_dicom_with_annotation in Hfig; rewrite Hdcm in Hfig;
      rewrite bind_Ok, Himage in Hfig; discriminate].
  exists dcm, image.
  destruct (truthy_path annotation_path && truthy_map show_annotations) eqn:Htruthy.
  - apply andb_true_iff in Htruthy as [Hpath Hmap].
    destruct annotation_path as [json_path|]; [|discriminate].
    destruct show_annotations as [m|]; [|discriminate].
    rewrite (display_with_annotations sv dicom_path json_path m dcm image
               Hdcm Himage Hpath Hmap) in Hfig.
    destruct (forallb _ _); [|discriminate]. injection Hfig as _ <-.
    set (annotations := fst (load_annotations (open_json sv) json_path)).
    exists (flat_map (polygon_calls m) annotations
            ++ match annotations with
               | [] => []
               | _ => [legend (map legend_entry annotations) "upper left" (0, 1)%Z
                              "Annotation Type" "large"]
               end).
    split; [reflexivity|]. split; [exact Himage|]. split.
    + unfold rendered. now rewrite <- (app_assoc (flat_map _ _)).
    + rewrite forallb_app, polygon_calls_overlay. now destruct annotations.
  - exists []. split; [reflexivity|]. split; [exact Himage|].
    unfold display_dicom_with_annotation in Hfig. rewrite Hdcm in Hfig.
    rewrite bind_Ok, Himage in Hfig.
    destruct annotation_path as [path|], show_annotations as [m|];
      rewrite ?Htruthy in Hfig; injection Hfig as _ <-; split; reflexivity.
Qed.

Lemma rendered_figure_frame_witness :
  ∃ dcm image overlay,
    dcmread (Samples.sample_services Samples.two_labels) "1-1.dcm" = Ok dcm
    ∧ pixel_array dcm = Ok image
    ∧ image_only (NdArray 20 10)
      = [subplots 10 10; imshow image "gray" "nearest";
         set_xlim 0 (shape1 image); set_ylim (shape0 image) 0]
        ++ overlay ++ [axis "off"; subplots_adjust]
    ∧ forallb is_overlay_call overlay = true.
Proof.
  apply (rendered_figure_frame (Samples.sample_services Samples.two_labels)
           "1-1.dcm" None None [] (image_only (NdArray 20 10)) eq_refl).
Defined.

End RendererBehaviour.

(** ** More on the View Classifier *)

Module ClassifierBehaviour.
Import Py Viewer Spec Readings PyStrFacts PyFacts ClassifierFacts.

Lemma attribute_error_or_not (e : exn) : e = AttributeError ∨ e ≠ AttributeError.
Proof. destruct e; (now left) || (now right). Qed.

(** X10.  The classifier is quiet unless an attribute access fails: it shows no
    warning when the view-code sequence is absent or empty, or when its first
    item has no code meaning; and when an access does fail it shows exactly one
    warning, with the exception, and answers false. *)
Theorem is_mlo_view_warns_only_on_access_error (dcm : dataset) :
  (snd (is_mlo_view dcm) = [] ∧ ∀ e, ¬ access_error dcm e)
  ∨ (∃ e, access_error dcm e
          ∧ is_mlo_view dcm = (false, [st_warning "Error checking MLO view: " e])).
Proof.
  unfold is_mlo_view, access_error.
  destruct (ViewCodeSequence dcm) as [[|item rest]|e] eqn:Hseq.
  - left. rewrite (is_mlo_view_try_empty dcm Hseq). split; [reflexivity|].
    intros e [[H _] | (i & r & H & _)]; discriminate.
  - rewrite (is_mlo_view_try_first dcm item rest Hseq).
    destruct (CodeMeaning item) as [value|e] eqn:Hmeaning.
    + destruct value as [text|values|].
      * left. split; [reflexivity|].
        intros e [[H _] | (i & r & [= <- <-] & [[H _] | (v & H & Hlow)])]; try congruence.
        rewrite Hmeaning in H. injection H as <-. discriminate.
      * right. exists AttributeError. split; [|reflexivity].
        right. exists item, rest. split; [reflexivity|]. right.
        exists (MultiValue values). split; [exact Hmeaning | reflexivity].
      * right. exists AttributeError. split; [|reflexivity].
        right. exists item, rest. split; [reflexivity|]. right.
        exists NoValue. split; [exact Hmeaning | reflexivity].
    + destruct (attribute_error_or_not e) as [->|He].
      * left. split; [reflexivity|].
        intros e [[H _] | (i & r & [= <- <-] & [[H He] | (v & H & _)])]; congruence.
      * right. exists e. split; [|now destruct e].
        right. exists item, rest. split; [reflexivity|]. now left.
  - destruct (attribute_error_or_not e) as [->|He].
    + left. rewrite (is_mlo_view_try_absent dcm Hseq). split; [reflexivity|].
      intros e [[H He] | (i & r & H & _)]; congruence.
    + right. exists e. rewrite (is_mlo_view_try_unreadable dcm e Hseq He).
      split; [now left | reflexivity].
Qed.

Lemma lower_char_idempotent (c : ascii) :
  PyStr.lower_char (PyStr.lower_char c) = PyStr.lower_char c.
Proof. destruct c as [[] [] [] [] [] [] [] []]; reflexivity. Qed.

Lemma lower_idempotent (s : string) : PyStr.lower (PyStr.lower s) = PyStr.lower s.
Proof.
  induction s as [|c s IH]; [reflexivity|].
  cbn [PyStr.lower]. now rewrite lower_char_idempotent, IH.
Qed.

(** X11.  The classifier reads the code meaning of the first item of the sequence
    and nothing else: the items after the first and the pixel data do not
    change its answer, and neither does the letter case of the meaning. *)
Theorem is_mlo_view_reads_first_meaning_only :
  (∀ item rest rest' pixels pixels',
     is_mlo_view (Dataset (Ok (item :: rest)) pixels)
     = is_mlo_view (Dataset (Ok (item :: rest')) pixels'))
  ∧ (∀ text rest pixels,
       is_mlo_view (Dataset (Ok (CodeItem (Ok (Text text)) :: rest)) pixels)
       = is_mlo_view (Dataset (Ok (CodeItem (Ok (Text (PyStr.lower text))) :: rest)) pixels)).
Proof.
  split.
  - intros item rest rest' pixels pixels'. unfold is_mlo_view.
    now rewrite (is_mlo_view_try_first (Dataset (Ok (item :: rest)) pixels) item rest eq_refl),
      (is_mlo_view_try_first (Dataset (Ok (item :: rest')) pixels') item rest' eq_refl).
  - intros text rest pixels. unfold is_mlo_view.
    rewrite (is_mlo_view_try_first (Dataset (Ok (CodeItem (Ok (Text text)) :: rest)) pixels)
               _ rest eq_refl),
      (is_mlo_view_try_first
         (Dataset (Ok (CodeItem (Ok (Text (PyStr.lower text))) :: rest)) pixels)
         _ rest eq_refl).
    cbn [CodeMeaning]. now rewrite lower_idempotent.
Qed.

End ClassifierBehaviour.

(** ** More on the per-patient step *)

Module StepBehaviour.
Import Py Viewer Spec Readings PyStrFacts PyFacts IndexFacts.
Import SessionFacts.

Section Loops.
Context (sv : services) (selected_patient : string) (patient_json_files : list string).

Local Abbreviation process := (process_dicom_file sv selected_patient patient_json_files).
Local Abbreviation pairs := (stored_for sv selected_patient patient_json_files).

(** One file of the walk: what it adds to the two lists and to the warnings. *)
Lemma process_dicom_file_adds (acc : list string * list string * list ui_event)
    (root file : string) :
  process acc root file =
  let added := if PyStr.endswith file ".dcm" then pairs (PyStr.join root file) else [] in
  (fst (fst acc) ++ map fst added, snd (fst acc) ++ map snd added,
   snd acc ++ file_events sv root file).
Proof.
  destruct acc as [[mlo_images mlo_annotations] events]. cbn [fst snd].
  unfold process_dicom_file, file_events, stored_for, is_target, read_and_probe, matching.
  destruct (PyStr.endswith file ".dcm"); cbn zeta; [|now rewrite !app_nil_r].
  destruct (_ ≫= _) as [dcm|e]; [|now rewrite !app_nil_r].
  destruct (is_mlo_view dcm) as [is_mlo warnings]. cbn [fst snd].
  destruct is_mlo; [|now rewrite !app_nil_r].
  destruct (filter _ patient_json_files) as [|first others]; [now rewrite !app_nil_r|].
  reflexivity.
Qed.

Lemma process_files_adds (acc : list string * list string * list ui_event)
    (root : string) (files : list string) :
  foldl (fun acc file => process acc root file) acc files =
  let added := flat_map pairs
                 (map (PyStr.join root)
                      (filter (fun f => PyStr.endswith f ".dcm" = true) files)) in
  (fst (fst acc) ++ map fst added, snd (fst acc) ++ map snd added,
   snd acc ++ flat_map (file_events sv root) files).
Proof.
  revert acc. induction files as [|file files IH]; intros acc; cbn [foldl].
  - destruct acc as [[? ?] ?]. cbn. now rewrite !app_nil_r.
  - rewrite IH, process_dicom_file_adds. cbn zeta. cbn [fst snd flat_map].
    rewrite filter_cons. destruct (PyStr.endswith file ".dcm") eqn:Hdcm.
    + rewrite decide_True by reflexivity. cbn [map flat_map].
      now rewrite !map_app, <- !app_assoc.
    + rewrite decide_False by discriminate. cbn [map app].
      now rewrite !app_nil_r, <- !app_assoc.
Qed.

Lemma collect_mlo_adds (walk : list (string * list string * list string)) :
  collect_mlo sv selected_patient patient_json_files walk =
  (map fst (flat_map pairs (dicom_paths walk)),
   map snd (flat_map pairs (dicom_paths walk)),
   flat_map (fun '(root, _, files) => flat_map (file_events sv root) files) walk).
Proof.
  unfold collect_mlo.
  change (@nil string, @nil string, @nil ui_event) with
    (map fst (@nil (string * string)), map snd (@nil (string * string)), @nil ui_event) at 1.
  assert (∀ acc,
    foldl (fun acc '(root, _, files) =>
             foldl (fun acc file => process acc root file) acc files) acc walk
    = (fst (fst acc) ++ map fst (flat_map pairs (dicom_paths walk)),
       snd (fst acc) ++ map snd (flat_map pairs (dicom_paths walk)),
       snd acc ++ flat_map (fun '(root, _, files) => flat_map (file_events sv root) files)
                           walk)) as Hgen.
  { induction walk as [|[[root dirs] files] walk IH]; intros acc; cbn [foldl].
    - destruct acc as [[? ?] ?]. cbn. now rewrite !app_nil_r.
    - rewrite IH, process_files_adds. cbn zeta. cbn [fst snd flat_map dicom_paths].
      unfold dicom_paths. cbn [flat_map]. rewrite flat_map_app, !map_app.
      now rewrite <- !app_assoc. }
  rewrite Hgen. reflexivity.
Qed.

Lemma pairs_first_match (first : string) (others paths : list string) :
  matching selected_patient patient_json_files = first :: others →
  flat_map pairs paths
  = map (fun p => (p, first)) (filter (fun p => is_target sv p = true) paths).
Proof.
  intros Hmatch. induction paths as [|p paths IH]; [reflexivity|].
  cbn [flat_map]. rewrite IH, filter_cons. unfold stored_for at 1. rewrite Hmatch.
  destruct (is_target sv p); [rewrite decide_True by reflexivity
                             | rewrite decide_False by discriminate]; reflexivity.
Qed.

Lemma pairs_no_match (paths : list string) :
  matching selected_patient patient_json_files = [] → flat_map pairs paths = [].
Proof.
  intros Hmatch. induction paths as [|p paths IH]; [reflexivity|].
  cbn [flat_map]. rewrite IH. unfold stored_for. rewrite Hmatch.
  now destruct (is_target sv p).
Qed.

End Loops.

(** X12.  The image set the loops build.  When the patient has a matching
    annotation file, the image list holds every [.dcm] file of the walk that
    decodes and that the View Classifier answers true on, each once, in the
    order of the walk, and the annotation list repeats the first matching file
    as many times; when the patient has none, both lists are empty. *)
Theorem collect_mlo_keeps_every_target_file (sv : services) (selected_patient : string)
    (patient_json_files : list string) (walk : list (string * list string * list string)) :
  fst (collect_mlo sv selected_patient patient_json_files walk)
  = match matching selected_patient patient_json_files with
    | [] => ([], [])
    | first :: _ =>
        (filter (fun p => is_target sv p = true) (dicom_paths walk),
         replicate (length (filter (fun p => is_target sv p = true) (dicom_paths walk))) first)
    end.
Proof.
  rewrite collect_mlo_adds. cbn [fst].
  destruct (matching selected_patient patient_json_files) as [|first others] eqn:Hmatch.
  - now rewrite (pairs_no_match sv _ _ _ Hmatch).
  - rewrite (pairs_first_match sv _ _ first others _ Hmatch).
    rewrite <- !list_fmap_compose. f_equal.
    + apply list_fmap_id.
    + induction (filter _ _) as [|p l IH]; [reflexivity|]. cbn. now rewrite IH.
Qed.

(** X13.  A file that fails does not stop the loops.  The warnings shown are, file
    by file in the order of the walk: nothing for a file that is not a [.dcm]
    file, one warning with the exception for a [.dcm] file that does not
    decode, and the warnings of the View Classifier for one that does. *)
Theorem collect_mlo_warns_file_by_file (sv : services) (selected_patient : string)
    (patient_json_files : list string) (walk : list (string * list string * list string)) :
  snd (collect_mlo sv selected_patient patient_json_files walk)
  = flat_map (fun '(root, _, files) =>
                flat_map (fun file =>
                            if PyStr.endswith file ".dcm" then
                              match read_and_probe sv (PyStr.join root file) with
                              | Raise e =>
                                  [st_warning ("Error reading DICOM file " ++ file ++ ": ")%string e]
                              | Ok dcm => snd (is_mlo_view dcm)
                              end
                            else [])
                         files)
             walk.
Proof. rewrite collect_mlo_adds. reflexivity. Qed.

(** X14.  An index made by the Patient Index Builder lists, under a patient id,
    only files of that patient and at least one: the selection of lines 302-305
    then keeps the whole list, line 307 never rejects an image, and the first
    match is the first file of the list. *)
Theorem built_index_always_matches (top : string) (t : tree) (pid : string)
    (patient_json_files : list string) :
  extract_patient_json_mapping top t !! pid = Some patient_json_files →
  matching pid patient_json_files = patient_json_files
  ∧ ∃ first others, patient_json_files = first :: others
                    ∧ head (matching pid patient_json_files) = Some first.
Proof.
  rewrite extract_patient_json_mapping_lookup. intros Hfiles.
  assert (matching pid patient_json_files = patient_json_files) as Hmatch.
  { destruct (filter _ (collect_json_files _)) as [|p ps] eqn:Hfilter; [discriminate|].
    injection Hfiles as <-. rewrite <- Hfilter. unfold matching.
    rewrite list_filter_filter. apply list_filter_iff. intros j. split; [tauto|].
    intros Hj. split; [congruence | exact Hj]. }
  split; [exact Hmatch|]. rewrite Hmatch.
  destruct (filter _ (collect_json_files _)) as [|p ps]; [discriminate|].
  injection Hfiles as <-. now exists p, ps.
Qed.

Lemma built_index_always_matches_witness :
  matching "1234567" ["extracted/1234567_a.json"; "extracted/1234567_b.json"]
  = ["extracted/1234567_a.json"; "extracted/1234567_b.json"]
  ∧ ∃ first others,
      ["extracted/1234567_a.json"; "extracted/1234567_b.json"] = first :: others
      ∧ head (matching "1234567" ["extracted/1234567_a.json"; "extracted/1234567_b.json"])
        = Some first.
Proof.
  apply (built_index_always_matches "extracted"
           (Dir ["1234567_a.json"; "1234567_b.json"; "9999999.json"; ".DS_Store"] [])
           "1234567").
  rewrite index_of_three_files. vm_compute. reflexivity.
Defined.


Lemma makedirs_exists (path : string) (disk : gmap string tree) :
  makedirs path disk !! path = Some (default (Dir [] []) (disk !! path)).
Proof.
  unfold makedirs. destruct (disk !! path) eqn:Hpath; cbn; [exact Hpath|].
  apply lookup_insert_eq.
Qed.



(** A step keeps the marks and the stored image sets in line. *)
Lemma process_patient_marks sv patient_json_dict selected_patient st disk st' disk' events :
  process_patient sv patient_json_dict selected_patient st disk = (st', disk', events) →
  dom (patient_images st) = images_downloaded st →
  dom (patient_images st') = images_downloaded st'.
Proof.
  unfold process_patient. case_bool_decide; [now intros [= <- _ _]|].
  destruct (filter _ (series sv)) as [|row rows]; [now intros [= <- _ _]|].
  destruct (if _ || _ then _ else _) as [t|e]; [|now intros [= <- _ _]].
  destruct (patient_json_dict !! selected_patient) as [patient_json_files|];
    [|now intros [= <- _ _]].
  destruct (collect_mlo _ _ _ _) as [[mlo_images mlo_annotations] evs].
  intros [= <- _ _] Hdom. cbn [patient_images images_downloaded].
  now rewrite dom_insert_L, Hdom.
Qed.

Lemma downloaded_marks_invariant (sv : services)
    (patient_json_dict : gmap string (list string)) (st : session_state)
    (disk : gmap string tree) :
  reachable sv patient_json_dict st disk →
  dom (patient_images st) = images_downloaded st.
Proof.
  induction 1 as [disk | st disk selected_patient st' disk' events _ IH Hstep].
  - cbn. apply dom_empty_L.
  - exact (process_patient_marks _ _ _ _ _ _ _ _ Hstep IH).
Qed.

(** X16.  In every session the step can reach, the patients marked as downloaded
    are exactly those with a stored image set. *)
Theorem downloaded_marks_are_the_stored_sets (sv : services)
    (patient_json_dict : gmap string (list string)) (st : session_state)
    (disk : gmap string tree) :
  reachable sv patient_json_dict st disk →
  dom (patient_images st) = images_downloaded st
  ∧ ∀ pid, pid ∈ images_downloaded st ↔ is_Some (patient_images st !! pid).
Proof.
  intros Hreach. pose proof (downloaded_marks_invariant _ _ _ _ Hreach) as Hdom.
  split; [exact Hdom|]. intros pid. rewrite <- Hdom. apply elem_of_dom.
Qed.

Lemma downloaded_marks_are_the_stored_sets_witness :
  dom (patient_images Samples.sample_session) = images_downloaded Samples.sample_session.
Proof.
  apply (proj1 (downloaded_marks_are_the_stored_sets
                  (Samples.sample_services Samples.two_labels) Samples.sample_index
                  Samples.sample_session _ SessionFacts.sample_session_reachable)).
Defined.

(** What follows a reachable session is reachable. *)
Lemma follows_reachable sv patient_json_dict st disk s' :
  reachable sv patient_json_dict st disk →
  follows sv patient_json_dict (st, disk) s' →
  reachable sv patient_json_dict (fst s') (snd s').
Proof.
  intros Hreach Hfollows. remember (st, disk) as s eqn:Hs.
  induction Hfollows as [s | s st1 disk1 pid st2 disk2 events _ IH Hstep].
  - now subst.
  - cbn [fst snd]. apply reachable_step with st1 disk1 pid events; [|exact Hstep].
    exact (IH Hs).
Qed.

(** X17.  Once stored, an image set stays: no later step of the session changes it,
    because the step of a marked patient does nothing. *)
Theorem stored_image_set_is_never_replaced (sv : services)
    (patient_json_dict : gmap string (list string)) (st st' : session_state)
    (disk disk' : gmap string tree) (pid : string) (images : list string * list string) :
  reachable sv patient_json_dict st disk →
  follows sv patient_json_dict (st, disk) (st', disk') →
  patient_images st !! pid = Some images →
  patient_images st' !! pid = Some images.
Proof.
  intros Hreach Hfollows Hstored. remember (st, disk) as s eqn:Hs.
  remember (st', disk') as s' eqn:Hs'. revert st' disk' Hs'.
  induction Hfollows as [s | s st1 disk1 selected st2 disk2 events Hbefore IH Hstep];
    intros st' disk' Hs'.
  - subst. now injection Hs' as <- <-.
  - injection Hs' as <- <-. specialize (IH Hs st1 disk1 eq_refl).
    assert (reachable sv patient_json_dict st1 disk1) as Hreach1.
    { subst s. exact (follows_reachable _ _ _ _ _ Hreach Hbefore). }
    destruct (decide (selected = pid)) as [->|Hne].
    + assert (pid ∈ images_downloaded st1) as Hmarked.
      { rewrite <- (downloaded_marks_invariant _ _ _ _ Hreach1).
        apply elem_of_dom. now exists images. }
      unfold process_patient in Hstep. rewrite bool_decide_eq_true_2 in Hstep by exact Hmarked.
      now injection Hstep as <- _ _.
    + apply SessionFacts.process_patient_images in Hstep as [Hsame | (files & walk & _ & Hnew)].
      * now rewrite Hsame.
      * rewrite Hnew. now rewrite lookup_insert_ne.
Qed.

Lemma stored_image_set_is_never_replaced_witness :
  patient_images MoreSamples.second_session !! "D1-0001"
  = Some (["images/D1-0001/1-1.dcm"], ["extracted/D1-0001_a.json"]).
Proof.
  apply (stored_image_set_is_never_replaced
           (Samples.sample_services Samples.two_labels) Samples.sample_index
           Samples.sample_session MoreSamples.second_session
           MoreSamples.sample_disk MoreSamples.second_disk "D1-0001" _
           SessionFacts.sample_session_reachable).
  - apply follows_step with Samples.sample_session MoreSamples.sample_disk "D1-0001"
      (snd (process_patient (Samples.sample_services Samples.two_labels)
                            Samples.sample_index "D1-0001"
                            Samples.sample_session MoreSamples.sample_disk)).
    + apply follows_refl.
    + unfold MoreSamples.second_session, MoreSamples.second_disk.
      now destruct (process_patient _ _ _ _ _) as [[? ?] ?].
  - vm_compute. reflexivity.
Defined.



(** X19.  No second download.  When the download directory of the patient exists
    and is not empty, the step does not call the download service, whatever
    it would do, and leaves the disk as it is. *)
Theorem nonempty_directory_is_not_downloaded_again (sv : services)
    (other_download : list string → string → tree → result tree)
    (patient_json_dict : gmap string (list string)) (selected_patient : string)
    (st : session_state) (disk : gmap string tree) (t : tree) :
  disk !! PyStr.join "images" selected_patient = Some t →
  listdir t ≠ [] →
  process_patient (Services (open_json sv) (dcmread sv) (series sv) other_download)
                  patient_json_dict selected_patient st disk
  = process_patient sv patient_json_dict selected_patient st disk
  ∧ snd (fst (process_patient sv patient_json_dict selected_patient st disk)) = disk.
Proof.
  intros Hdir Hfull.
  assert (∀ download,
    process_patient (Services (open_json sv) (dcmread sv) (series sv) download)
                    patient_json_dict selected_patient st disk
    = if bool_decide (selected_patient ∈ images_downloaded st) then (st, disk, [])
      else match filter (fun row => fst row = selected_patient) (series sv) with
           | [] => (st, disk, [])
           | _ =>
               match patient_json_dict !! selected_patient with
               | None =>
                   (st, disk,
                    [st_error ("Error processing patient " ++ selected_patient ++ ": ")%string
                              (KeyError selected_patient)])
               | Some patient_json_files =>
                   let '(mlo_images, mlo_annotations, events) :=
                     collect_mlo (Services (open_json sv) (dcmread sv) (series sv) download)
                                 selected_patient patient_json_files
                                 (os_walk (PyStr.join "images" selected_patient) t) in
                   (SessionState (current_patient_index st)
                      (<[selected_patient := (mlo_images, mlo_annotations)]> (patient_images st))
                      ({[selected_patient]} ∪ images_downloaded st)
                      (annotation_toggles st),
                    disk, events)
               end
           end) as Hstep.
  { intros download. unfold process_patient. cbn [series downloadSeries].
    case_bool_decide; [reflexivity|].
    destruct (filter _ (series sv)) as [|row rows]; [reflexivity|].
    rewrite makedirs_exists, Hdir. cbn [default from_option id].
    rewrite (bool_decide_eq_true_2 (is_Some (Some t))) by eauto.
    rewrite (bool_decide_eq_false_2 _ Hfull). cbn [negb orb].
    assert (<[PyStr.join "images" selected_patient := t]>
              (makedirs (PyStr.join "images" selected_patient) disk) = disk) as ->.
    { unfold makedirs. rewrite Hdir. now apply insert_id. }
    reflexivity. }
  assert (∀ download files walk,
    collect_mlo (Services (open_json sv) (dcmread sv) (series sv) download)
                selected_patient files walk
    = collect_mlo sv selected_patient files walk) as Hcollect.
  { intros download files walk. rewrite !collect_mlo_adds. reflexivity. }
  split.
  - rewrite Hstep. destruct sv as [oj dr se dl]. cbn [open_json dcmread series] in *.
    rewrite (Hstep dl). case_bool_decide; [reflexivity|].
    destruct (filter _ se); [reflexivity|].
    destruct (patient_json_dict !! selected_patient); [|reflexivity].
    now rewrite (Hcollect other_download).
  - destruct sv as [oj dr se dl]. cbn [open_json dcmread series] in *.
    rewrite (Hstep dl). case_bool_decide; [reflexivity|].
    destruct (filter _ se); [reflexivity|].
    destruct (patient_json_dict !! selected_patient); [|reflexivity].
    now destruct (collect_mlo _ _ _ _) as [[? ?] ?].
Qed.

Lemma nonempty_directory_is_not_downloaded_again_witness :
  snd (fst (process_patient (Samples.sample_services Samples.two_labels)
              Samples.sample_index "D1-0001" initial_session MoreSamples.sample_disk))
  = MoreSamples.sample_disk.
Proof.
  assert (MoreSamples.sample_disk !! PyStr.join "images" "D1-0001"
          = Some (Dir ["1-1.dcm"; "1-2-cc.dcm"; "LICENSE"] [])) as Hdir
    by (vm_compute; reflexivity).
  destruct (nonempty_directory_is_not_downloaded_again
              (Samples.sample_services Samples.two_labels)
              (fun _ _ _ => Raise (LibraryError "connection refused"))
              Samples.sample_index "D1-0001" initial_session MoreSamples.sample_disk
              (Dir ["1-1.dcm"; "1-2-cc.dcm"; "LICENSE"] []) Hdir) as [_ Hdisk].
  - discriminate.
  - exact Hdisk.
Defined.

End StepBehaviour.

(** ** The archive is fetched and extracted once *)

Module ArchiveFacts.
Import Py Viewer Archive.

Lemma cache_paths :
  zip_path = "cached_data/TOMPEI-CMMD.zip" ∧ extract_path = "cached_data/extracted"
  ∧ cache_dir ≠ zip_path ∧ cache_dir ≠ extract_path ∧ zip_path ≠ extract_path.
Proof. repeat split; discriminate. Qed.

(** On a settled disk the function returns the extraction path at once. *)
Lemma settled_returns (w : web) (disk : gmap string node) :
  settled disk → download_and_extract_zip w disk = (disk, Ok extract_path).
Proof.
  intros ([t Hcache] & [z Hzip] & [x Hextract]). unfold download_and_extract_zip,
    makedirs_exist_ok. now rewrite Hcache, Hzip, Hextract.
Qed.

(** Whenever the function gets past the download, it leaves a settled disk,
    whether the extraction then raises or not. *)
Lemma call_settles (w : web) (disk disk' : gmap string node) (r : result string) :
  download_and_extract_zip w disk = (disk', r) →
  (∀ c, disk !! cache_dir ≠ Some (FileNode c)) →
  is_Some (disk' !! zip_path) ∨ (∃ p, r = Ok p) →
  settled disk'.
Proof.
  destruct cache_paths as (_ & _ & Hcz & Hce & Hze).
  unfold download_and_extract_zip, makedirs_exist_ok. intros Hcall Hdir Hzip.
  destruct (disk !! cache_dir) as [[c|t]|] eqn:Hcache; [now destruct (Hdir c)| |].
  - (* the cache directory was there *)
    destruct (disk !! zip_path) as [z|] eqn:Hz.
    + destruct (disk !! extract_path) as [x|] eqn:Hx.
      * injection Hcall as <- _. repeat split; eauto.
      * rewrite lookup_insert_ne, Hz in Hcall by congruence.
        destruct z as [content|tz].
        -- destruct (extractall w content) as [tx raised].
           assert (disk' = <[extract_path := DirNode tx]>
                             (<[extract_path := DirNode (Dir [] [])]> disk)) as ->
             by (destruct raised; now injection Hcall as <- _).
           repeat split.
           ++ exists t. now rewrite !lookup_insert_ne by congruence.
           ++ exists (FileNode content). now rewrite !lookup_insert_ne by congruence.
           ++ eexists. apply lookup_insert_eq.
        -- injection Hcall as <- _. repeat split.
           ++ exists t. now rewrite lookup_insert_ne by congruence.
           ++ exists (DirNode tz). now rewrite lookup_insert_ne by congruence.
           ++ eexists. apply lookup_insert_eq.
    + destruct (http_get w url) as [content|e].
      * destruct (<[zip_path := FileNode content]> disk !! extract_path) as [x|] eqn:Hx.
        -- injection Hcall as <- _. repeat split.
           ++ exists t. now rewrite lookup_insert_ne by congruence.
           ++ eexists. apply lookup_insert_eq.
           ++ eauto.
        -- rewrite lookup_insert_ne, lookup_insert_eq in Hcall by congruence.
           destruct (extractall w content) as [tx raised].
           assert (disk' = <[extract_path := DirNode tx]>
                             (<[extract_path := DirNode (Dir [] [])]>
                                (<[zip_path := FileNode content]> disk))) as ->
             by (destruct raised; now injection Hcall as <- _).
           repeat split.
           ++ exists t. now rewrite !lookup_insert_ne by congruence.
           ++ exists (FileNode content).
              rewrite !lookup_insert_ne by congruence. apply lookup_insert_eq.
           ++ eexists. apply lookup_insert_eq.
      * injection Hcall as <- <-. destruct Hzip as [Hzip | [p Hp]]; [|discriminate].
        rewrite Hz in Hzip. now destruct Hzip.
  - (* the cache directory had to be made *)
    set (disk1 := <[cache_dir := DirNode (Dir [] [])]> disk) in *.
    assert (disk1 !! cache_dir = Some (DirNode (Dir [] []))) as Hcache1
      by apply lookup_insert_eq.
    destruct (disk1 !! zip_path) as [z|] eqn:Hz.
    + destruct (disk1 !! extract_path) as [x|] eqn:Hx.
      * injection Hcall as <- _. repeat split; eauto.
      * rewrite lookup_insert_ne, Hz in Hcall by congruence.
        destruct z as [content|tz].
        -- destruct (extractall w content) as [tx raised].
           assert (disk' = <[extract_path := DirNode tx]>
                             (<[extract_path := DirNode (Dir [] [])]> disk1)) as ->
             by (destruct raised; now injection Hcall as <- _).
           repeat split.
           ++ eexists. rewrite !lookup_insert_ne by congruence. exact Hcache1.
           ++ eexists. rewrite !lookup_insert_ne by congruence. exact Hz.
           ++ eexists. apply lookup_insert_eq.
        -- injection Hcall as <- _. repeat split.
           ++ eexists. rewrite lookup_insert_ne by congruence. exact Hcache1.
           ++ eexists. rewrite lookup_insert_ne by congruence. exact Hz.
           ++ eexists. apply lookup_insert_eq.
    + destruct (http_get w url) as [content|e].
      * destruct (<[zip_path := FileNode content]> disk1 !! extract_path) as [x|] eqn:Hx.
        -- injection Hcall as <- _. repeat split.
           ++ eexists. rewrite lookup_insert_ne by congruence. exact Hcache1.
           ++ eexists. apply lookup_insert_eq.
           ++ eauto.
        -- rewrite lookup_insert_ne, lookup_insert_eq in Hcall by congruence.
           destruct (extractall w content) as [tx raised].
           assert (disk' = <[extract_path := DirNode tx]>
                             (<[extract_path := DirNode (Dir [] [])]>
                                (<[zip_path := FileNode content]> disk1))) as ->
             by (destruct raised; now injection Hcall as <- _).
           repeat split.
           ++ eexists. rewrite !lookup_insert_ne by congruence. exact Hcache1.
           ++ eexists. rewrite !lookup_insert_ne by congruence. apply lookup_insert_eq.
           ++ eexists. apply lookup_insert_eq.
      * injection Hcall as <- <-. destruct Hzip as [Hzip | [p Hp]]; [|discriminate].
        rewrite Hz in Hzip. now destruct Hzip.
Qed.

Lemma success_needs_cache_dir (w : web) (disk disk' : gmap string node) (p : string) :
  download_and_extract_zip w disk = (disk', Ok p) →
  ∀ c, disk !! cache_dir ≠ Some (FileNode c).
Proof.
  unfold download_and_extract_zip, makedirs_exist_ok. intros Hcall c Hc.
  rewrite Hc in Hcall. discriminate.
Qed.

Lemma success_returns_extract_path (w : web) (disk disk' : gmap string node) (p : string) :
  download_and_extract_zip w disk = (disk', Ok p) → p = extract_path.
Proof.
  unfold download_and_extract_zip. intros Hcall.
  destruct (makedirs_exist_ok cache_dir disk) as [disk1|]; [|discriminate].
  destruct (match disk1 !! zip_path with None => _ | Some _ => _ end) as [disk2|];
    [|discriminate].
  destruct (disk2 !! extract_path); [now injection Hcall as _ <-|].
  destruct (_ !! zip_path) as [[content|]|]; try discriminate.
  destruct (extractall w content) as [t [e|]]; [discriminate|].
  now injection Hcall as _ <-.
Qed.

(** X20.  Fetched and extracted once.  After a call that returned, any further call
    returns the same path, ["cached_data/extracted"], and leaves the disk as
    it is, whatever the network and the archive library would answer: nothing
    is downloaded or extracted again. *)
Theorem archive_is_prepared_once (w w' : web) (disk disk' : gmap string node) (p : string) :
  download_and_extract_zip w disk = (disk', Ok p) →
  p = "cached_data/extracted"
  ∧ download_and_extract_zip w' disk' = (disk', Ok p).
Proof.
  intros Hcall. pose proof (success_returns_extract_path w disk disk' p Hcall) as ->.
  split; [reflexivity|]. apply settled_returns.
  apply (call_settles w disk disk' _ Hcall); [|right; now eexists].
  exact (success_needs_cache_dir w disk disk' _ Hcall).
Qed.

Lemma archive_is_prepared_once_witness :
  download_and_extract_zip
    (Web (fun _ => Raise (LibraryError "offline")) (fun _ => (Dir [] [], Some TypeError)))
    (fst (download_and_extract_zip
            (Web (fun _ => Ok "PK") (fun _ => (Dir ["1234567_a.json"] [], None))) ∅))
  = (fst (download_and_extract_zip
            (Web (fun _ => Ok "PK") (fun _ => (Dir ["1234567_a.json"] [], None))) ∅),
     Ok "cached_data/extracted").
Proof.
  apply (archive_is_prepared_once
           (Web (fun _ => Ok "PK") (fun _ => (Dir ["1234567_a.json"] [], None)))
           (Web (fun _ => Raise (LibraryError "offline")) (fun _ => (Dir [] [], Some TypeError)))
           ∅).
  vm_compute. reflexivity.
Defined.

(** X21.  A failed extraction is not tried again.  When a call raises after the
    archive was written, the extraction directory is already there, with
    whatever the extraction left in it, and every later call returns its path
    without extracting: the archive is never read again.  A failed download, on
    the contrary, leaves no archive on disk. *)
Theorem failed_extraction_is_not_retried (w w' : web) (disk disk' : gmap string node)
    (e : exn) :
  download_and_extract_zip w disk = (disk', Raise e) →
  (∀ c, disk !! cache_dir ≠ Some (FileNode c)) →
  (is_Some (disk' !! zip_path) →
   download_and_extract_zip w' disk' = (disk', Ok "cached_data/extracted"))
  ∧ (disk !! zip_path = None → http_get w url = Raise e → disk' !! zip_path = None).
Proof.
  intros Hcall Hdir. split.
  - intros Hzip. apply settled_returns.
    apply (call_settles w disk disk' _ Hcall Hdir). now left.
  - intros Hz Hget. destruct cache_paths as (_ & _ & Hcz & _ & _).
    unfold download_and_extract_zip, makedirs_exist_ok in Hcall.
    destruct (disk !! cache_dir) as [[c|t]|] eqn:Hcache; [now destruct (Hdir c)| |].
    + rewrite Hz, Hget in Hcall. now injection Hcall as <-.
    + rewrite lookup_insert_ne, Hz, Hget in Hcall by congruence.
      injection Hcall as <-. now rewrite lookup_insert_ne by congruence.
Qed.

Lemma failed_extraction_is_not_retried_witness :
  download_and_extract_zip
    (Web (fun _ => Ok "PK") (fun _ => (Dir ["1234567_a.json"] [], None)))
    (fst (download_and_extract_zip
            (Web (fun _ => Ok "<html>404</html>")
                 (fun _ => (Dir [] [], Some (LibraryError "BadZipFile"))))
            ∅))
  = (fst (download_and_extract_zip
            (Web (fun _ => Ok "<html>404</html>")
                 (fun _ => (Dir [] [], Some (LibraryError "BadZipFile"))))
            ∅),
     Ok "cached_data/extracted").
Proof.
  apply (failed_extraction_is_not_retried
           (Web (fun _ => Ok "<html>404</html>")
                (fun _ => (Dir [] [], Some (LibraryError "BadZipFile"))))
           (Web (fun _ => Ok "PK") (fun _ => (Dir ["1234567_a.json"] [], None)))
           ∅ _ (LibraryError "BadZipFile")).
  - vm_compute. reflexivity.
  - intros c. rewrite lookup_empty. discriminate.
  - vm_compute. eauto.
Defined.

End ArchiveFacts.

(** ** Patient selection *)

Module NavigationFacts.
Import Py Viewer Navigation.

Lemma sorted_patient_ids_keys (patient_json_dict : gmap string (list string)) :
  NoDup (sorted_patient_ids patient_json_dict)
  ∧ (∀ pid, pid ∈ sorted_patient_ids patient_json_dict
            ↔ is_Some (patient_json_dict !! pid)).
Proof.
  unfold sorted_patient_ids.
  pose proof (merge_sort_Permutation String.le (map fst (map_to_list patient_json_dict)))
    as Hperm.
  split; [rewrite Hperm; apply NoDup_fst_map_to_list|].
  intros pid. rewrite Hperm, list_elem_of_fmap. split.
  - intros ([k v] & -> & Hkv). apply elem_of_map_to_list in Hkv. now exists v.
  - intros [v Hv]. exists (pid, v). split; [reflexivity|]. now apply elem_of_map_to_list.
Qed.

(** X22.  The patient list.  [sorted_patient_ids] holds the keys of the index and
    nothing else, each once, in ascending order; its length is the number of
    keys, the count the sidebar shows, and it is empty exactly when the index
    is, the case line 226 stops at. *)
Theorem sorted_patient_ids_are_the_keys (patient_json_dict : gmap string (list string)) :
  StronglySorted String.le (sorted_patient_ids patient_json_dict)
  ∧ NoDup (sorted_patient_ids patient_json_dict)
  ∧ (∀ pid, pid ∈ sorted_patient_ids patient_json_dict
            ↔ is_Some (patient_json_dict !! pid))
  ∧ length (sorted_patient_ids patient_json_dict) = size patient_json_dict
  ∧ (sorted_patient_ids patient_json_dict = [] ↔ patient_json_dict = ∅).
Proof.
  unfold sorted_patient_ids.
  pose proof (merge_sort_Permutation String.le (map fst (map_to_list patient_json_dict)))
    as Hperm.
  split; [apply StronglySorted_merge_sort; apply _|].
  destruct (sorted_patient_ids_keys patient_json_dict) as [Hnodup Hkeys].
  split; [exact Hnodup|]. split; [exact Hkeys|]. split.
  - rewrite Hperm, length_fmap. apply length_map_to_list.
  - split.
    + intros Hnil. rewrite Hnil in Hperm. symmetry in Hperm.
      apply Permutation_nil_r in Hperm. apply fmap_nil_inv in Hperm.
      now apply map_to_list_empty_iff.
    + intros ->. now rewrite map_to_list_empty.
Qed.

(** [l.index(x)] finds the first place of [x]. *)
Lemma list_index_Some (x : string) (l : list string) (n : Z) :
  list_index x l = Some n →
  (0 <= n < Z.of_nat (length l))%Z ∧ l !! Z.to_nat n = Some x.
Proof.
  unfold list_index. destruct (list_find _ l) as [[i y]|] eqn:Hfind; [|discriminate].
  intros [= <-]. apply list_find_Some in Hfind as (Hi & -> & _).
  rewrite Nat2Z.id. split; [|exact Hi]. apply lookup_lt_Some in Hi. lia.
Qed.

Lemma list_index_NoDup (l : list string) (i : nat) (x : string) :
  NoDup l → l !! i = Some x → list_index x l = Some (Z.of_nat i).
Proof.
  intros Hnodup Hi. unfold list_index.
  destruct (list_find_elem_of (fun y => y = x) l x) as [[j y] Hfind];
    [now apply list_elem_of_lookup_2 with i | reflexivity|].
  rewrite Hfind. apply list_find_Some in Hfind as (Hj & -> & _).
  now rewrite (NoDup_lookup l i j x Hnodup Hi Hj).
Qed.

(** X23.  The index stays on the list.  With at least one patient and an index on
    the list, the index after a click on Previous or Next is on the list too:
    Previous moves one down and stays at 0, Next moves one up and stays at the
    last place.  Choosing a listed patient in the dropdown gives an index on
    the list, choosing another gives none. *)
Theorem patient_index_stays_on_the_list (sorted_ids : list string)
    (current_patient_index : Z) :
  (0 <= current_patient_index < Z.of_nat (length sorted_ids))%Z →
  (∃ n, new_patient_index sorted_ids current_patient_index ClickPrevious = Some n
        ∧ (0 <= n < Z.of_nat (length sorted_ids))%Z
        ∧ n = if (current_patient_index =? 0)%Z then 0%Z
              else (current_patient_index - 1)%Z)
  ∧ (∃ n, new_patient_index sorted_ids current_patient_index ClickNext = Some n
          ∧ (0 <= n < Z.of_nat (length sorted_ids))%Z
          ∧ n = if (current_patient_index =? Z.of_nat (length sorted_ids) - 1)%Z
                then current_patient_index else (current_patient_index + 1)%Z)
  ∧ (∀ pid, match new_patient_index sorted_ids current_patient_index (SelectPatient pid) with
            | Some n => (0 <= n < Z.of_nat (length sorted_ids))%Z
                        ∧ sorted_ids !! Z.to_nat n = Some pid
            | None => pid ∉ sorted_ids
            end).
Proof.
  intros Hindex. split; [|split].
  - eexists. split; [reflexivity|]. split; [lia|].
    destruct (Z.eqb_spec current_patient_index 0); lia.
  - eexists. split; [reflexivity|]. split; [lia|].
    destruct (Z.eqb_spec current_patient_index (Z.of_nat (length sorted_ids) - 1)); lia.
  - intros pid. cbn [new_patient_index].
    destruct (list_index pid sorted_ids) as [n|] eqn:Hfind.
    + now apply list_index_Some.
    + intros Hin. unfold list_index in Hfind.
      destruct (list_find_elem_of (fun y => y = pid) sorted_ids pid Hin eq_refl)
        as [[i y] Hsome].
      now rewrite Hsome in Hfind.
Qed.

Lemma patient_index_stays_on_the_list_witness :
  ∃ n, new_patient_index ["D1-0001"; "D1-0002"; "D1-0003"] 2 ClickNext = Some n
       ∧ (0 <= n < Z.of_nat (length ["D1-0001"; "D1-0002"; "D1-0003"]))%Z
       ∧ n = if (2 =? Z.of_nat (length ["D1-0001"; "D1-0002"; "D1-0003"]) - 1)%Z
             then 2%Z else (2 + 1)%Z.
Proof.
  apply (patient_index_stays_on_the_list ["D1-0001"; "D1-0002"; "D1-0003"] 2).
  cbn. lia.
Defined.

(** X24.  The dropdown and the list agree.  On the patient list of an index,
    choosing the patient that stands at a place sets the index to that place,
    and the index set by choosing a patient is the place of that patient. *)
Theorem selecting_a_patient_round_trip (patient_json_dict : gmap string (list string))
    (current_patient_index : Z) (i : nat) (pid : string) :
  sorted_patient_ids patient_json_dict !! i = Some pid →
  new_patient_index (sorted_patient_ids patient_json_dict) current_patient_index
                    (SelectPatient pid) = Some (Z.of_nat i)
  ∧ is_Some (patient_json_dict !! pid).
Proof.
  intros Hi. destruct (sorted_patient_ids_keys patient_json_dict) as (Hnodup & Hkeys).
  split.
  - cbn [new_patient_index]. now apply list_index_NoDup.
  - apply Hkeys. now apply list_elem_of_lookup_2 with i.
Qed.

Lemma selecting_a_patient_round_trip_witness :
  new_patient_index (sorted_patient_ids Samples.sample_index) 5 (SelectPatient "D1-0001")
  = Some (Z.of_nat 0)
  ∧ is_Some (Samples.sample_index !! "D1-0001").
Proof.
  apply (selecting_a_patient_round_trip Samples.sample_index 5 0 "D1-0001").
  vm_compute. reflexivity.
Defined.

End NavigationFacts.

(** ** Toggles and figures *)

Module PageFacts.
Import Py Viewer Spec Readings Page PyFacts RendererFacts.
Import Samples MoreSamples PageSamples.

(** The labels gathered from the annotation files. *)
Lemma add_labels_spec (annotations : list annotation) (types : gset string) (l : string) :
  l ∈ add_labels types annotations ↔ l ∈ types ∨ ∃ a, a ∈ annotations ∧ label a = l.
Proof.
  unfold add_labels. revert types.
  induction annotations as [|a annotations IH]; intros types; cbn [foldl].
  - split; [now left | intros [H | (a & Ha & _)]; [exact H | inversion Ha]].
  - rewrite IH, elem_of_union, elem_of_singleton. split.
    + intros [[-> | H] | (b & Hb & Hl)].
      * right. exists a. split; [left | reflexivity].
      * now left.
      * right. exists b. split; [now right | exact Hl].
    + intros [H | (b & Hb & Hl)]; [left; now right|].
      apply elem_of_cons in Hb as [-> | Hb]; [left; left; now symmetry|].
      right. now exists b.
Qed.

Lemma annotation_types_of_spec (sv : services) (json_paths : list string) (l : string) :
  l ∈ fst (annotation_types_of sv json_paths)
  ↔ ∃ json_path a, json_path ∈ json_paths
                   ∧ a ∈ fst (load_annotations (open_json sv) json_path)
                   ∧ label a = l.
Proof.
  unfold annotation_types_of.
  assert (∀ acc : gset string * list ui_event,
    l ∈ fst (foldl (fun '(types, events) json_path =>
                      let '(annotations, warnings) :=
                        load_annotations (open_json sv) json_path in
                      (add_labels types annotations, events ++ warnings)) acc json_paths)
    ↔ l ∈ fst acc
      ∨ ∃ json_path a, json_path ∈ json_paths
                       ∧ a ∈ fst (load_annotations (open_json sv) json_path)
                       ∧ label a = l) as Hgen.
  { induction json_paths as [|j json_paths IH]; intros [types events]; cbn [foldl fst].
    - split; [now left | intros [H | (j & a & Hj & _)]; [exact H | inversion Hj]].
    - destruct (load_annotations (open_json sv) j) as [annotations warnings] eqn:Hload.
      rewrite IH. cbn [fst]. rewrite add_labels_spec. split.
      + intros [[H | (a & Ha & Hl)] | (j' & a & Hj' & Ha & Hl)].
        * now left.
        * right. exists j, a. rewrite Hload. split; [left | now split].
        * right. exists j', a. split; [now right | now split].
      + intros [H | (j' & a & Hj' & Ha & Hl)]; [left; now left|].
        apply elem_of_cons in Hj' as [-> | Hj'].
        * rewrite Hload in Ha. left. right. now exists a.
        * right. now exists j', a. }
  rewrite Hgen. cbn [fst]. split; [intros [H | H]; [set_solver | exact H] | now right].
Qed.

(** One label after the other. *)
Section Toggles.
Context (ui : widgets) (selected_patient : string).

Local Abbreviation answer := (answer ui selected_patient).

Lemma toggle_label_lookup (toggles states : gmap string bool) (annotation_type l : string) :
  let acc := toggle_label ui selected_patient (toggles, states) annotation_type in
  (if decide (l = annotation_type)
   then fst acc !! l = Some (answer toggles l) ∧ snd acc !! l = Some (answer toggles l)
   else fst acc !! l = toggles !! l ∧ snd acc !! l = states !! l).
Proof.
  cbn zeta. unfold toggle_label, answer. cbn [fst snd].
  destruct (decide (l = annotation_type)) as [->|Hne].
  - rewrite !lookup_insert_eq.
    destruct (toggles !! annotation_type) eqn:Hl; [now rewrite Hl|].
    now rewrite lookup_insert_eq.
  - rewrite !lookup_insert_ne by congruence.
    destruct (toggles !! annotation_type); [now split|].
    now rewrite lookup_insert_ne by congruence.
Qed.

Lemma toggle_labels_lookup (types : list string) (toggles states : gmap string bool)
    (l : string) :
  NoDup types →
  let acc := foldl (toggle_label ui selected_patient) (toggles, states) types in
  (if decide (l ∈ types)
   then fst acc !! l = Some (answer toggles l) ∧ snd acc !! l = Some (answer toggles l)
   else fst acc !! l = toggles !! l ∧ snd acc !! l = states !! l).
Proof.
  cbn zeta. revert toggles states.
  induction types as [|t types IH]; intros toggles states Hnodup; cbn [foldl].
  - rewrite decide_False by apply not_elem_of_nil. now split.
  - apply NoDup_cons in Hnodup as [Ht Hnodup].
    pose proof (toggle_label_lookup toggles states t l) as Hstep. cbn zeta in Hstep.
    destruct (toggle_label ui selected_patient (toggles, states) t) as [toggles1 states1].
    cbn [fst snd] in Hstep. specialize (IH toggles1 states1 Hnodup).
    destruct (decide (l = t)) as [->|Hne].
    + rewrite decide_True by left. rewrite decide_False in IH by exact Ht.
      destruct IH as [-> ->]. exact Hstep.
    + destruct Hstep as [Htog Hsta].
      destruct (decide (l ∈ types)) as [Hin|Hout].
      * rewrite decide_True by now right. unfold answer in *. now rewrite <- Htog.
      * rewrite decide_False by (intros [?|?]%elem_of_cons; tauto).
        destruct IH as [-> ->]. now split.
Qed.

End Toggles.

(** X25.  The checkboxes.  After lines 339-349, [annotation_states] has exactly
    the labels of the image set; the state of each is the answer of its
    checkbox, which was offered the stored toggle of the label, or True for a
    label without one; the answer is stored as the new toggle; and the toggles
    of the labels that are not in the image set are kept. *)
Theorem toggles_follow_the_checkboxes (ui : widgets) (selected_patient : string)
    (patient_toggles : gmap string bool) (annotation_types : gset string) :
  dom (snd (toggle_labels ui selected_patient patient_toggles annotation_types))
  = annotation_types
  ∧ ∀ l,
      if decide (l ∈ annotation_types)
      then snd (toggle_labels ui selected_patient patient_toggles annotation_types) !! l
           = Some (checkbox ui ("Show " ++ l) ("toggle_" ++ selected_patient ++ "_" ++ l)
                            (default true (patient_toggles !! l)))
           ∧ fst (toggle_labels ui selected_patient patient_toggles annotation_types) !! l
             = snd (toggle_labels ui selected_patient patient_toggles annotation_types) !! l
      else fst (toggle_labels ui selected_patient patient_toggles annotation_types) !! l
           = patient_toggles !! l.
Proof.
  assert (∀ l,
    if decide (l ∈ elements annotation_types)
    then fst (toggle_labels ui selected_patient patient_toggles annotation_types) !! l
         = Some (answer ui selected_patient patient_toggles l)
         ∧ snd (toggle_labels ui selected_patient patient_toggles annotation_types) !! l
           = Some (answer ui selected_patient patient_toggles l)
    else fst (toggle_labels ui selected_patient patient_toggles annotation_types) !! l
         = patient_toggles !! l
         ∧ snd (toggle_labels ui selected_patient patient_toggles annotation_types) !! l
           = (∅ : gmap string bool) !! l) as Hlookup.
  { intros l. apply (toggle_labels_lookup ui selected_patient (elements annotation_types)
                       patient_toggles ∅ l). apply NoDup_elements. }
  split.
  - apply set_eq. intros l. rewrite elem_of_dom. specialize (Hlookup l).
    destruct (decide (l ∈ elements annotation_types)) as [Hin|Hout].
    + destruct Hlookup as [_ ->]. split; [intros _; now apply elem_of_elements | eauto].
    + destruct Hlookup as [_ ->]. rewrite lookup_empty. split; [now intros []|].
      intros Hl. now apply elem_of_elements in Hl.
  - intros l. specialize (Hlookup l).
    destruct (decide (l ∈ annotation_types)) as [Hin|Hout].
    + rewrite decide_True in Hlookup by now apply elem_of_elements.
      destruct Hlookup as [-> ->]. now split.
    + rewrite decide_False in Hlookup by now rewrite elem_of_elements.
      now destruct Hlookup as [-> _].
Qed.

(** X26.  The renderer is told about every label.  The map that [main] hands to the
    renderer has an entry for the label of every record of every annotation
    file of the image set, so the default of line 144 is never used there; and
    when that map is empty, the case the renderer's [if] takes for no map at
    all, no annotation file of the image set has a record. *)
Theorem renderer_map_knows_every_label (sv : services) (ui : widgets)
    (selected_patient : string) (patient_toggles : gmap string bool)
    (annotations : list string) :
  (∀ json_path a,
     json_path ∈ annotations →
     a ∈ fst (load_annotations (open_json sv) json_path) →
     snd (toggle_labels ui selected_patient patient_toggles
                        (fst (annotation_types_of sv annotations))) !! label a
     = Some (Viewer.shown
               (snd (toggle_labels ui selected_patient patient_toggles
                                   (fst (annotation_types_of sv annotations)))) a))
  ∧ (truthy_map (Some (snd (toggle_labels ui selected_patient patient_toggles
                                          (fst (annotation_types_of sv annotations)))))
     = false →
     ∀ json_path, json_path ∈ annotations →
                  fst (load_annotations (open_json sv) json_path) = []).
Proof.
  set (types := fst (annotation_types_of sv annotations)).
  set (states := snd (toggle_labels ui selected_patient patient_toggles types)).
  assert (∀ l, is_Some (states !! l) ↔ l ∈ types) as Hdom.
  { intros l. pose proof (toggle_labels_lookup ui selected_patient (elements types)
                            patient_toggles ∅ l (NoDup_elements types)) as Hl.
    cbn zeta in Hl. fold (toggle_labels ui selected_patient patient_toggles types) in Hl.
    fold states in Hl. destruct (decide (l ∈ elements types)) as [Hin|Hout].
    - destruct Hl as [_ ->]. split; [intros _; now apply elem_of_elements | eauto].
    - destruct Hl as [_ ->]. rewrite lookup_empty. split; [now intros []|].
      intros Hl. now apply elem_of_elements in Hl. }
  assert (∀ json_path a, json_path ∈ annotations →
            a ∈ fst (load_annotations (open_json sv) json_path) → label a ∈ types)
    as Hlabels.
  { intros j a Hj Ha. apply annotation_types_of_spec. now exists j, a. }
  split.
  - intros j a Hj Ha. destruct (proj2 (Hdom (label a)) (Hlabels j a Hj Ha)) as [b Hb].
    unfold Viewer.shown. now rewrite Hb.
  - intros Hempty j Hj.
    destruct (fst (load_annotations (open_json sv) j)) as [|a l] eqn:Hload; [reflexivity|].
    assert (states ≠ ∅) as Hne.
    { destruct (proj2 (Hdom (label a))) as [b Hb].
      - apply (Hlabels j a Hj). rewrite Hload. left.
      - intros Heq. rewrite Heq, lookup_empty in Hb. discriminate. }
    apply truthy_map_nonempty in Hne. congruence.
Qed.

(** The figure loop. *)
Section Figures.
Context (sv : services) (ui : widgets) (selected_patient : string)
        (annotation_states : gmap string bool).

Local Abbreviation key := (fun pair : string * string =>
                             figure_key ui (fst pair) annotation_states).
Local Abbreviation loop := (show_figures sv ui selected_patient annotation_states).

Lemma plotted_app (p q : list page_item) : plotted (p ++ q) = plotted p ++ plotted q.
Proof. apply omap_app. Qed.

Lemma plotted_shown (events : list ui_event) : plotted (map shown events) = [].
Proof. induction events as [|e l IH]; [reflexivity | exact IH]. Qed.

(** With every figure kept, the loop shows the kept figures and renders
    nothing. *)
Lemma show_figures_kept (pairs : list (string * string)) (figures : gmap string figure)
    (page : list page_item) :
  all_kept ui annotation_states figures pairs = true →
  loop pairs figures page
  = (figures,
     page ++ flat_map (kept_items ui selected_patient annotation_states figures) pairs,
     Ok ()).
Proof.
  revert page. induction pairs as [|[dcm_path json_path] pairs IH]; intros page Hkept.
  - cbn. now rewrite app_nil_r.
  - unfold all_kept in *. cbn [forallb fst] in Hkept. apply andb_true_iff in Hkept as [Hfirst Hrest].
    apply bool_decide_eq_true in Hfirst as [fig Hfig].
    cbn [show_figures flat_map]. rewrite Hfig. rewrite (IH _ Hrest).
    unfold kept_items at 2. cbn [fst snd]. rewrite Hfig.
    now rewrite <- !app_assoc.
Qed.

(** A run of the loop only adds figures, and when it comes to its end every
    image has its figure kept, the one the page shows. *)
Lemma show_figures_grows (pairs : list (string * string)) (figures figures' : gmap string figure)
    (page page' : list page_item) (outcome : result unit) :
  loop pairs figures page = (figures', page', outcome) →
  figures ⊆ figures'
  ∧ (outcome = Ok () →
     all_kept ui annotation_states figures' pairs = true
     ∧ plotted page' = plotted page ++ omap (fun pair => figures' !! key pair) pairs).
Proof.
  revert figures page. induction pairs as [|[dcm_path json_path] pairs IH];
    intros figures page Hrun; cbn [show_figures] in Hrun.
  - injection Hrun as <- <- <-. split; [reflexivity|]. intros _.
    split; [reflexivity|]. cbn. now rewrite app_nil_r.
  - destruct (figures !! figure_key ui dcm_path annotation_states) as [fig|] eqn:Hfig.
    + destruct (IH _ _ Hrun) as [Hsub Hend]. split; [exact Hsub|]. intros Hok.
      destruct (Hend Hok) as [Hkept Hplotted].
      pose proof (lookup_weaken _ _ _ _ Hfig Hsub) as Hfig'.
      split.
      * unfold all_kept in *. cbn [forallb fst]. rewrite Hkept, andb_true_r.
        apply bool_decide_eq_true. now exists fig.
      * rewrite Hplotted, !plotted_app. cbn [omap list_omap fst]. rewrite Hfig'.
        cbn. now rewrite <- !app_assoc.
    + destruct (display_dicom_with_annotation sv dcm_path (Some json_path)
                  (Some annotation_states)) as [warnings [fig|e]].
      * destruct (IH _ _ Hrun) as [Hsub Hend].
        assert (figures ⊆ figures') as Hsub'.
        { etransitivity; [|exact Hsub]. now apply insert_subseteq. }
        split; [exact Hsub'|]. intros Hok. destruct (Hend Hok) as [Hkept Hplotted].
        assert (figures' !! figure_key ui dcm_path annotation_states = Some fig) as Hfig'.
        { apply (lookup_weaken _ _ _ _ (lookup_insert_eq _ _ _) Hsub). }
        split.
        -- unfold all_kept in *. cbn [forallb fst]. rewrite Hkept, andb_true_r.
           apply bool_decide_eq_true. now exists fig.
        -- rewrite Hplotted, !plotted_app, plotted_shown. cbn [omap list_omap fst].
           rewrite Hfig'. cbn. now rewrite <- !app_assoc.
      * injection Hrun as <- <- <-. split; [reflexivity | discriminate].
Qed.

End Figures.

(** X27.  Figures are rendered once.  After a run of the figure loop that came to
    its end, a further run with the same toggles renders nothing, whatever the
    files now hold: it leaves the kept figures as they are and shows, image by
    image, the very figures the first run showed. *)
Theorem figures_are_rendered_once (sv sv' : services) (ui : widgets)
    (selected_patient : string) (annotation_states : gmap string bool)
    (pairs : list (string * string)) (figures figures' : gmap string figure)
    (page page' again : list page_item) :
  show_figures sv ui selected_patient annotation_states pairs figures page
  = (figures', page', Ok ()) →
  ∃ again',
    show_figures sv' ui selected_patient annotation_states pairs figures' again
    = (figures', again', Ok ())
    ∧ plotted page'
      = plotted page
        ++ omap (fun pair => figures' !! figure_key ui (fst pair) annotation_states) pairs
    ∧ plotted again'
      = plotted again
        ++ omap (fun pair => figures' !! figure_key ui (fst pair) annotation_states) pairs.
Proof.
  intros Hrun.
  destruct (show_figures_grows sv ui selected_patient annotation_states
              pairs figures figures' page page' _ Hrun) as [_ Hend].
  destruct (Hend eq_refl) as [Hkept Hplotted].
  pose proof (show_figures_kept sv' ui selected_patient annotation_states
                pairs figures' again Hkept) as Hagain.
  eexists. split; [exact Hagain|]. split; [exact Hplotted|].
  destruct (show_figures_grows sv' ui selected_patient annotation_states
              pairs figures' figures' again _ _ Hagain) as [_ Hend'].
  exact (proj2 (Hend' eq_refl)).
Qed.

Lemma figures_are_rendered_once_witness :
  ∃ again',
    show_figures offline_services sample_widgets "D1-0001" {[ "Mass" := true ]}
                 sample_pairs (fst (fst first_run)) []
    = (fst (fst first_run), again', Ok ())
    ∧ plotted (snd (fst first_run))
      = plotted []
        ++ omap (fun pair => fst (fst first_run)
                               !! figure_key sample_widgets (fst pair) {[ "Mass" := true ]})
                sample_pairs
    ∧ plotted again'
      = plotted []
        ++ omap (fun pair => fst (fst first_run)
                               !! figure_key sample_widgets (fst pair) {[ "Mass" := true ]})
                sample_pairs.
Proof.
  apply (figures_are_rendered_once (sample_services two_labels) offline_services
           sample_widgets "D1-0001" {[ "Mass" := true ]} sample_pairs ∅
           (fst (fst first_run)) [] (snd (fst first_run)) []).
  vm_compute. reflexivity.
Defined.


(** X28.  An exception of the renderer is not caught.  When the figures of the
    first images are kept and the renderer raises on the next one, the loop
    stops there with that exception: it has shown the kept figures, the two
    captions of the failing image and the loader's warnings; it keeps no new
    figure; and the images after are not shown. *)
Theorem renderer_exception_ends_the_page (sv : services) (ui : widgets)
    (selected_patient : string) (annotation_states : gmap string bool)
    (before after : list (string * string)) (dcm_path json_path : string)
    (figures : gmap string figure) (page : list page_item)
    (warnings : list ui_event) (e : exn) :
  all_kept ui annotation_states figures before = true →
  figures !! figure_key ui dcm_path annotation_states = None →
  display_dicom_with_annotation sv dcm_path (Some json_path) (Some annotation_states)
  = (warnings, Raise e) →
  show_figures sv ui selected_patient annotation_states
               (before ++ (dcm_path, json_path) :: after) figures page
  = (figures,
     page ++ flat_map (kept_items ui selected_patient annotation_states figures) before
          ++ [markdown ("### Patient: " ++ selected_patient);
              markdown ("Annotation: " ++ PyStr.basename json_path)]
          ++ map shown warnings,
     Raise e).
Proof.
  intros Hkept Hnew Hraise. revert page.
  induction before as [|[p j] before IH]; intros page.
  - cbn [app show_figures flat_map]. rewrite Hnew, Hraise. now rewrite <- !app_assoc.
  - unfold all_kept in *. cbn [forallb fst] in Hkept. apply andb_true_iff in Hkept as [Hfirst Hrest].
    apply bool_decide_eq_true in Hfirst as [fig Hfig].
    cbn [app show_figures flat_map]. rewrite Hfig, (IH Hrest).
    unfold kept_items at 2. cbn [fst snd]. rewrite Hfig. now rewrite <- !app_assoc.
Qed.

Lemma renderer_exception_ends_the_page_witness :
  show_figures broken_services sample_widgets "D1-0001" {[ "Mass" := true ]}
               (sample_pairs
                ++ ("tcia/broken.dcm", "extracted/D1-0001_b.json")
                   :: [("tcia/1-3.dcm", "extracted/D1-0001_b.json")])
               (fst (fst first_run)) []
  = (fst (fst first_run),
     [] ++ flat_map (kept_items sample_widgets "D1-0001" {[ "Mass" := true ]}
                                (fst (fst first_run))) sample_pairs
        ++ [markdown ("### Patient: " ++ "D1-0001");
            markdown ("Annotation: " ++ PyStr.basename "extracted/D1-0001_b.json")]
        ++ map shown [],
     Raise (LibraryError "not a DICOM file")).
Proof.
  assert (all_kept sample_widgets ({[ "Mass" := true ]} : gmap string bool)
                   (fst (fst first_run)) sample_pairs = true) as Hkept
    by (vm_compute; reflexivity).
  assert (fst (fst first_run)
            !! figure_key sample_widgets "tcia/broken.dcm"
                          ({[ "Mass" := true ]} : gmap string bool) = None) as Hnew
    by (vm_compute; reflexivity).
  assert (display_dicom_with_annotation broken_services "tcia/broken.dcm"
            (Some "extracted/D1-0001_b.json")
            (Some ({[ "Mass" := true ]} : gmap string bool))
          = ([], Raise (LibraryError "not a DICOM file"))) as Hraise
    by (vm_compute; reflexivity).
  exact (renderer_exception_ends_the_page broken_services sample_widgets "D1-0001"
           {[ "Mass" := true ]} sample_pairs [("tcia/1-3.dcm", "extracted/D1-0001_b.json")]
           "tcia/broken.dcm" "extracted/D1-0001_b.json" (fst (fst first_run)) [] []
           (LibraryError "not a DICOM file") Hkept Hnew Hraise).
Defined.


End PageFacts.
